(** * Order-status notification bridge: phone matching, order authorisation,
      country-code splitting and the batch sender.

    A shallow embedding of [db.py] and [app.py].  Python [str] values are
    modelled by [string]; a character is read as the code point of the same
    number, so the strings of this development are the Python strings whose
    code points lie below 256.  [None] is modelled by [option]. *)

From Stdlib Require Import String Ascii List ZArith QArith Lia Bool Arith.
From Stdlib Require Import DecimalString.
Import ListNotations.

Local Close Scope Q_scope.
Local Open Scope string_scope.
Local Open Scope nat_scope.

(* ------------------------------------------------------------------ *)
(** ** Python string operations *)
(* ------------------------------------------------------------------ *)

Module PyStr.

Definition ord (ch : ascii) : nat := nat_of_ascii ch.

(** [str.isdigit] on one character: the ten decimal digits and the three
    superscript digits U+00B2, U+00B3 and U+00B9. *)
Definition isdigit (ch : ascii) : bool :=
  let n := ord ch in
  ((48 <=? n) && (n <=? 57)) || (n =? 178) || (n =? 179) || (n =? 185).

(** [str.isdecimal] on one character: '0' .. '9'. *)
Definition isdecimal (ch : ascii) : bool :=
  let n := ord ch in (48 <=? n) && (n <=? 57).

(** [str.isspace] on one character. *)
Definition isspace (ch : ascii) : bool :=
  let n := ord ch in
  ((9 <=? n) && (n <=? 13)) || ((28 <=? n) && (n <=? 32))
  || (n =? 133) || (n =? 160).

(** ["".join(ch for ch in s if keep(ch))] *)
Fixpoint filter (keep : ascii -> bool) (s : string) : string :=
  match s with
  | EmptyString => EmptyString
  | String ch rest =>
      if keep ch then String ch (filter keep rest) else filter keep rest
  end.

(** Every character of [s] satisfies [p]. *)
Fixpoint all (p : ascii -> bool) (s : string) : bool :=
  match s with
  | EmptyString => true
  | String ch rest => p ch && all p rest
  end.

(** Truthiness of a string: [bool(s)]. *)
Definition truthy (s : string) : bool :=
  match s with EmptyString => false | String _ _ => true end.

(** [s[n:]] for [n >= 0]. *)
Fixpoint drop (n : nat) (s : string) : string :=
  match n, s with
  | O, _ => s
  | S _, EmptyString => EmptyString
  | S m, String _ rest => drop m rest
  end.

(** [s[-n:]] for [n > 0]: the slice starts at [max (len s - n) 0]. *)
Definition last (n : nat) (s : string) : string :=
  drop (String.length s - n) s.

(** [s.startswith(p)] *)
Fixpoint startswith (p s : string) : bool :=
  match p, s with
  | EmptyString, _ => true
  | String _ _, EmptyString => false
  | String a p', String b s' => Ascii.eqb a b && startswith p' s'
  end.

Fixpoint lstrip (s : string) : string :=
  match s with
  | EmptyString => EmptyString
  | String ch rest => if isspace ch then lstrip rest else s
  end.

Fixpoint rstrip (s : string) : string :=
  match s with
  | EmptyString => EmptyString
  | String ch rest =>
      match rstrip rest with
      | EmptyString => if isspace ch then EmptyString else String ch EmptyString
      | kept => String ch kept
      end
  end.

(** [s.strip()] *)
Definition strip (s : string) : string := rstrip (lstrip s).

(** [str(n)] for an integer. *)
Definition of_int (n : Z) : string := NilZero.string_of_int (Z.to_int n).

End PyStr.

(** Result of a call that may raise: the message is [str(e)]. *)
Inductive outcome (A : Type) : Type :=
| Returns (a : A)
| Raises (msg : string).
Arguments Returns {A} a.
Arguments Raises {A} msg.

Definition raised {A} (o : outcome A) : bool :=
  match o with Returns _ => false | Raises _ => true end.

(* ------------------------------------------------------------------ *)
(** ** db.py *)
(* ------------------------------------------------------------------ *)

(** [x or y] on values that are a string or [None]. *)
Definition py_or (x y : option string) : option string :=
  match x with
  | Some s => if PyStr.truthy s then x else y
  | None => y
  end.

(** [x or d] where [d] is a string literal. *)
Definition or_default (x : option string) (d : string) : string :=
  match py_or x (Some d) with Some s => s | None => d end.

(** [x or ""] *)
Definition or_empty (x : option string) : string := or_default x "".

Definition normalize_phone (phone : option string) : string :=
  match phone with
  | None => ""
  | Some p => if negb (PyStr.truthy p) then "" else PyStr.filter PyStr.isdigit p
  end.

Definition phone_matches (db_phone wa_phone : option string) : bool :=
  let db_norm := normalize_phone db_phone in
  let wa_norm := normalize_phone wa_phone in
  if negb (PyStr.truthy db_norm) || negb (PyStr.truthy wa_norm) then false
  else if String.eqb db_norm wa_norm then true
  else String.eqb (PyStr.last 9 db_norm) (PyStr.last 9 wa_norm).

(** A row of the order query: a SQL NULL is [None].  [r_total] and
    [r_date_added] hold the text [str] gives for the stored value. *)
Record row := {
  r_order_id : Z;
  r_firstname : option string;
  r_lastname : option string;
  r_order_phone : option string;
  r_date_added : option string;
  r_total : option string;
  r_order_status_id : option Z;
  r_status_name : option string;
  r_customer_phone : option string
}.

(** [str(x)] of a value that may be [None]. *)
Definition str_opt (x : option string) : string :=
  match x with Some s => s | None => "None" end.

Record order_data := {
  od_order_id : string;
  od_customer_name : string;
  od_status : string;
  od_total : string;
  od_date_added : string;
  od_tracking_url : string
}.

(** The data-access collaborator: what [get_connection], the query with
    [fetchone] / [fetchall], and [conn.close] do. *)
Record database := {
  connect : outcome unit;
  fetchone : Z -> outcome (option row);
  fetchall : option Z -> option Z -> option Z -> outcome (list row);
  close : outcome unit
}.

Definition row_phone (r : row) : string :=
  or_empty (py_or (r_order_phone r) (r_customer_phone r)).

Definition row_customer_name (r : row) : string :=
  let customer_name :=
    PyStr.strip (or_empty (r_firstname r) ++ " " ++ or_empty (r_lastname r)) in
  if negb (PyStr.truthy customer_name) then "Customer" else customer_name.

Definition row_tracking_url (r : row) : string :=
  "https://www.ipshopy.com/index.php?" ++
  "route=account/order/info&order_id=" ++ PyStr.of_int (r_order_id r).

Definition row_order_data (r : row) : order_data :=
  {| od_order_id := PyStr.of_int (r_order_id r);
     od_customer_name := row_customer_name r;
     od_status := or_default (r_status_name r) "Unknown";
     od_total := str_opt (r_total r);
     od_date_added := str_opt (r_date_added r);
     od_tracking_url := row_tracking_url r |}.

(** [finally: conn.close()]: an exception of the clean-up replaces the
    result of the body. *)
Definition finally_close {A} (db : database) (body : outcome A) : outcome A :=
  match close db with
  | Raises e => Raises e
  | Returns _ => body
  end.

Definition fetch_order_with_validation (db : database) (order_id : Z)
    (wa_phone : string) : outcome (option order_data * bool) :=
  match connect db with
  | Raises e => Raises ("Database connection failed: " ++ e)
  | Returns _ =>
      finally_close db
        match fetchone db order_id with
        | Raises e => Raises e
        | Returns None => Returns (None, false)
        | Returns (Some r) =>
            let db_phone := row_phone r in
            let authorized := phone_matches (Some db_phone) (Some wa_phone) in
            Returns (Some (row_order_data r), authorized)
        end
  end.

(** An order as the automation hands it to the batch sender: a dict whose
    keys [order_id] and [customer_name] are read with [order[...]] and whose
    other keys are read with [order.get]; [None] is a key that is missing or
    holds [None]. *)
Record order := {
  o_order_id : string;
  o_customer_name : string;
  o_phone : option string;
  o_status : option string;
  o_status_id : option Z;
  o_total : option string;
  o_date_added : option string;
  o_tracking_url : option string
}.

(** [not phone or len(phone.strip()) < 10] *)
Definition no_usable_phone (phone : option string) : bool :=
  match phone with
  | None => true
  | Some p => negb (PyStr.truthy p) || (String.length (PyStr.strip p) <? 10)
  end.

Definition row_order (r : row) (phone : string) : order :=
  {| o_order_id := PyStr.of_int (r_order_id r);
     o_customer_name := row_customer_name r;
     o_phone := Some phone;
     o_status := Some (or_default (r_status_name r) "Unknown");
     o_status_id := r_order_status_id r;
     o_total := Some (str_opt (r_total r));
     o_date_added := Some (str_opt (r_date_added r));
     o_tracking_url := Some (row_tracking_url r) |}.

(** The loop over the fetched rows. *)
Fixpoint rows_to_orders (rows : list row) : list order :=
  match rows with
  | [] => []
  | r :: rest =>
      let phone := row_phone r in
      if no_usable_phone (Some phone) then rows_to_orders rest
      else row_order r phone :: rows_to_orders rest
  end.

Definition fetch_orders_for_automation (db : database)
    (limit order_status_id days_back : option Z) : outcome (list order) :=
  match connect db with
  | Raises e => Raises ("Database connection failed: " ++ e)
  | Returns _ =>
      finally_close db
        match fetchall db limit order_status_id days_back with
        | Raises e => Raises e
        | Returns rows => Returns (rows_to_orders rows)
        end
  end.

(* ------------------------------------------------------------------ *)
(** ** app.py *)
(* ------------------------------------------------------------------ *)

(** Module-level configuration read from the environment. *)
Record config := {
  INTERAKT_API_KEY : option string;
  DEFAULT_COUNTRY_CODE : string
}.

Definition INTERAKT_TEMPLATE_NAME : string := "insearch_of_order_id".
Definition INTERAKT_TEMPLATE_LANG : string := "en".

Definition digit_or_plus (ch : ascii) : bool :=
  PyStr.isdigit ch || Ascii.eqb ch "+".

Definition parse_phone_number (cfg : config) (phone : string)
    : string * string :=
  let phone := PyStr.strip phone in
  let phone_clean := PyStr.filter digit_or_plus phone in
  if PyStr.startswith "+" phone_clean then
    let phone_clean := PyStr.drop 1 phone_clean in
    if PyStr.startswith "91" phone_clean && (12 <=? String.length phone_clean)
    then ("+91", PyStr.drop 2 phone_clean)
    else if PyStr.startswith "1" phone_clean
            && (11 <=? String.length phone_clean)
    then ("+1", PyStr.drop 1 phone_clean)
    else if (12 <=? String.length phone_clean)
            && PyStr.startswith "91" phone_clean
    then ("+91", PyStr.drop 2 phone_clean)
    else (DEFAULT_COUNTRY_CODE cfg, phone_clean)
  else if PyStr.startswith "91" phone_clean
          && (12 <=? String.length phone_clean)
  then ("+91", PyStr.drop 2 phone_clean)
  else (DEFAULT_COUNTRY_CODE cfg, phone_clean).

(** The JSON body of the template request. *)
Record payload := {
  countryCode : string;
  phoneNumber : string;
  callbackData : string;
  type_ : string;
  template_name : string;
  template_languageCode : string;
  template_bodyValues : list string;
  template_buttonValues : list (string * list string)
}.

(** What [requests.post] hands back: [resp_json] is [None] when
    [resp.json()] raises. *)
Record response := {
  status_code : Z;
  resp_text : string;
  resp_json : option string
}.

(** The parsed body, or the [{"raw_text": ...}] fallback. *)
Inductive body : Type :=
| Json (data : string)
| RawText (raw_text : string).

(** Observable effects, oldest first: a request handed to [requests.post]
    with its [Authorization] header, and a completed [time.sleep]. *)
Inductive event : Type :=
| Post (authorization : string) (p : payload)
| Sleep (d : Q).

(** The outside world of [app.py]: the messaging API, whose answer may depend
    on everything that happened before, and the clock. *)
Record world := {
  post : list event -> string -> payload -> outcome response;
  sleep : Q -> outcome unit
}.

Definition api_key_missing (cfg : config) : bool :=
  match INTERAKT_API_KEY cfg with
  | None => true
  | Some k => negb (PyStr.truthy k)
  end.

Definition build_payload (cfg : config) (od : order_data)
    (phone_number : string) : payload :=
  let '(country_code, phone_num) := parse_phone_number cfg phone_number in
  {| countryCode := country_code;
     phoneNumber := phone_num;
     callbackData := "order:" ++ od_order_id od;
     type_ := "Template";
     template_name := INTERAKT_TEMPLATE_NAME;
     template_languageCode := INTERAKT_TEMPLATE_LANG;
     template_bodyValues := [od_customer_name od];
     template_buttonValues := [("0", [od_order_id od])] |}.

Definition interakt_send_order_status (cfg : config) (w : world)
    (od : order_data) (phone_number : string) (tr : list event)
    : outcome (Z * body) * list event :=
  if api_key_missing cfg then (Raises "INTERAKT_API_KEY not set in .env", tr)
  else
    let authorization := "Basic " ++ or_empty (INTERAKT_API_KEY cfg) in
    let p := build_payload cfg od phone_number in
    let tr' := (tr ++ [Post authorization p])%list in
    match post w tr authorization p with
    | Raises e => (Raises e, tr')
    | Returns resp =>
        let data :=
          match resp_json resp with
          | Some j => Json j
          | None => RawText (resp_text resp)
          end in
        (Returns (status_code resp, data), tr')
    end.

(** One entry of [results["details"]]; the constructor is the ["status"]
    key. *)
Inductive detail : Type :=
| Skipped (order_id reason : string)
| Success (order_id phone customer_name : string) (whatsapp_status_code : Z)
| Failed (order_id phone customer_name : string) (whatsapp_status_code : Z)
         (error : body)
| Error (order_id phone customer_name : string) (error : string).

Definition detail_status (d : detail) : string :=
  match d with
  | Skipped _ _ => "skipped"
  | Success _ _ _ _ => "success"
  | Failed _ _ _ _ _ => "failed"
  | Error _ _ _ _ => "error"
  end.

Definition detail_order_id (d : detail) : string :=
  match d with
  | Skipped i _ | Success i _ _ _ | Failed i _ _ _ _ | Error i _ _ _ => i
  end.

Record BatchResult := {
  total : nat;
  success : nat;
  failed : nat;
  skipped : nat;
  details : list detail
}.

(** The state a batch run works on: the [results] dict it mutates and the
    effects performed so far. *)
Record run_state := {
  results : BatchResult;
  io : list event
}.

(** Statements that mutate the state and may raise; the state reached when
    an exception is raised is kept, as a [try] does not undo mutations. *)
Definition M (A : Type) : Type := run_state -> outcome A * run_state.

Definition ret {A} (a : A) : M A := fun st => (Returns a, st).

Definition bind {A B} (m : M A) (k : A -> M B) : M B :=
  fun st =>
    match m st with
    | (Returns a, st') => k a st'
    | (Raises e, st') => (Raises e, st')
    end.

Notation "x <- m ;; k" := (bind m (fun x => k))
  (at level 61, m at next level, right associativity).
Notation "m ;;; k" := (bind m (fun _ => k))
  (at level 61, right associativity).

(** [try: m  except Exception as e: handler(str(e))] *)
Definition try_except {A} (m : M A) (handler : string -> M A) : M A :=
  fun st =>
    match m st with
    | (Returns a, st') => (Returns a, st')
    | (Raises e, st') => handler e st'
    end.

Fixpoint for_each {X} (xs : list X) (loop_body : X -> M unit) : M unit :=
  match xs with
  | [] => ret tt
  | x :: rest => loop_body x ;;; for_each rest loop_body
  end.

Definition with_results (f : BatchResult -> BatchResult) : M unit :=
  fun st => (Returns tt, {| results := f (results st); io := io st |}).

Definition with_world {A} (f : list event -> outcome A * list event) : M A :=
  fun st =>
    let '(r, tr) := f (io st) in (r, {| results := results st; io := tr |}).

Definition record_skipped (d : detail) (r : BatchResult) : BatchResult :=
  {| total := total r; success := success r; failed := failed r;
     skipped := skipped r + 1; details := (details r ++ [d])%list |}.

Definition record_success (d : detail) (r : BatchResult) : BatchResult :=
  {| total := total r; success := success r + 1; failed := failed r;
     skipped := skipped r; details := (details r ++ [d])%list |}.

Definition record_failed (d : detail) (r : BatchResult) : BatchResult :=
  {| total := total r; success := success r; failed := failed r + 1;
     skipped := skipped r; details := (details r ++ [d])%list |}.

(** [delay_seconds > 0] *)
Definition positive_delay (d : Q) : bool := negb (Qle_bool d 0).

(** [time.sleep(d)], logged when it completes. *)
Definition time_sleep (w : world) (d : Q) : M unit :=
  with_world (fun tr =>
    match sleep w d with
    | Returns _ => (Returns tt, (tr ++ [Sleep d])%list)
    | Raises e => (Raises e, tr)
    end).

Definition get_default (x : option string) (d : string) : string :=
  match x with Some s => s | None => d end.

Definition order_data_of (o : order) : order_data :=
  {| od_order_id := o_order_id o;
     od_customer_name := o_customer_name o;
     od_status := get_default (o_status o) "Unknown";
     od_total := get_default (o_total o) "";
     od_date_added := get_default (o_date_added o) "";
     od_tracking_url := get_default (o_tracking_url o) "" |}.

Definition is_200_or_201 (status : Z) : bool :=
  (status =? 200)%Z || (status =? 201)%Z.

(** The body of the [for order in orders] loop. *)
Definition process_order (cfg : config) (w : world) (delay_seconds : Q)
    (o : order) : M unit :=
  if no_usable_phone (o_phone o) then
    with_results
      (record_skipped (Skipped (o_order_id o) "No phone number"))
  else
    let phone := get_default (o_phone o) "" in
    try_except
      (r <- with_world
              (interakt_send_order_status cfg w (order_data_of o) phone) ;;
       let '(status, interakt_resp) := r in
       (if is_200_or_201 status then
          with_results
            (record_success
               (Success (o_order_id o) phone (o_customer_name o) status))
        else
          with_results
            (record_failed
               (Failed (o_order_id o) phone (o_customer_name o) status
                       interakt_resp))) ;;;
       if positive_delay delay_seconds then time_sleep w delay_seconds
       else ret tt)
      (fun e =>
         with_results
           (record_failed
              (Error (o_order_id o) phone (o_customer_name o) e))).

Definition initial_results (orders : list order) : BatchResult :=
  {| total := List.length orders; success := 0; failed := 0; skipped := 0;
     details := [] |}.

Definition send_batch_whatsapp_messages (cfg : config) (w : world)
    (orders : list order) (delay_seconds : Q) (tr : list event)
    : outcome BatchResult * list event :=
  let st := {| results := initial_results orders; io := tr |} in
  match for_each orders (process_order cfg w delay_seconds) st with
  | (Returns _, st') => (Returns (results st'), io st')
  | (Raises e, st') => (Raises e, io st')
  end.

(** The parameters of the automation request, after they are read from the
    query string or the JSON body. *)
Record automation_request := {
  limit : option Z;
  order_status_id : option Z;
  days_back : option Z;
  delay_seconds : Q;
  dry_run : bool
}.

(** The JSON answers of [automate_send_messages]; [http_status] and
    [success_flag] read the status code and the ["success"] key. *)
Inductive automation_response : Type :=
| NoOrdersFound (rq_limit rq_status rq_days : option Z)
| DryRun (orders : list order) (rq_limit rq_status rq_days : option Z)
| Processed (r : BatchResult) (rq_limit rq_status rq_days : option Z)
| AutomationFailed (error : string).

Definition http_status (a : automation_response) : Z :=
  match a with
  | NoOrdersFound _ _ _ => 404
  | DryRun _ _ _ _ => 200
  | Processed _ _ _ _ => 200
  | AutomationFailed _ => 500
  end.

Definition success_flag (a : automation_response) : bool :=
  match a with
  | NoOrdersFound _ _ _ => false
  | DryRun _ _ _ _ => true
  | Processed _ _ _ _ => true
  | AutomationFailed _ => false
  end.

Definition automate_send_messages (cfg : config) (w : world) (db : database)
    (rq : automation_request) (tr : list event)
    : automation_response * list event :=
  match fetch_orders_for_automation db (limit rq) (order_status_id rq)
          (days_back rq) with
  | Raises e => (AutomationFailed e, tr)
  | Returns orders =>
      match orders with
      | [] =>
          (NoOrdersFound (limit rq) (order_status_id rq) (days_back rq), tr)
      | _ :: _ =>
          if dry_run rq then
            (DryRun orders (limit rq) (order_status_id rq) (days_back rq), tr)
          else
            match send_batch_whatsapp_messages cfg w orders
                    (delay_seconds rq) tr with
            | (Returns r, tr') =>
                (Processed r (limit rq) (order_status_id rq) (days_back rq),
                 tr')
            | (Raises e, tr') => (AutomationFailed e, tr')
            end
      end
  end.

(* ------------------------------------------------------------------ *)
(** ** Definitions used by the statements, and sample data *)
(* ------------------------------------------------------------------ *)

(** A superscript digit or a decimal digit: what [str.isdigit] accepts. *)
Definition decimal_or_superscript (ch : ascii) : bool :=
  PyStr.isdecimal ch
  || Ascii.eqb ch "178" || Ascii.eqb ch "179" || Ascii.eqb ch "185".

(** The phone on file as the specification words it: the order-level phone,
    else the customer-level phone, else the empty string. *)
Definition stored_phone (r : row) : string :=
  match r_order_phone r with
  | Some (String ch rest) => String ch rest
  | _ =>
      match r_customer_phone r with
      | Some p => p
      | None => ""
      end
  end.

(** A fault of the data-access layer: the connection, the query or the
    release of the connection raises. *)
Definition data_access_fault (db : database) (order_id : Z) : bool :=
  raised (connect db) || raised (fetchone db order_id) || raised (close db).

Definition sample_row : row :=
  {| r_order_id := 178541;
     r_firstname := Some "Jane";
     r_lastname := Some "Doe";
     r_order_phone := Some "";
     r_date_added := Some "2024-01-05 10:00:00";
     r_total := Some "499.0000";
     r_order_status_id := Some 1%Z;
     r_status_name := None;
     r_customer_phone := Some "07588348865" |}.

Definition sample_database : database :=
  {| connect := Returns tt;
     fetchone := fun order_id =>
       if (order_id =? 178541)%Z then Returns (Some sample_row)
       else Returns None;
     fetchall := fun _ _ _ => Returns [sample_row];
     close := Returns tt |}.

(** The destination phone after cleaning: the digits and plus signs of the
    trimmed input. *)
Definition cleaned (phone : string) : string :=
  PyStr.filter digit_or_plus (PyStr.strip phone).

(** The part of the cleaned phone that follows a leading plus sign. *)
Definition after_plus (phone : string) : string :=
  if PyStr.startswith "+" (cleaned phone) then PyStr.drop 1 (cleaned phone)
  else cleaned phone.

Definition sample_config : config :=
  {| INTERAKT_API_KEY := Some "secret"; DEFAULT_COUNTRY_CODE := "+91" |}.

Definition error_detail (o : order) (e : string) : detail :=
  Error (o_order_id o) (get_default (o_phone o) "") (o_customer_name o) e.

Definition status_detail (o : order) (status : Z) (b : body) : detail :=
  if is_200_or_201 status then
    Success (o_order_id o) (get_default (o_phone o) "") (o_customer_name o)
            status
  else
    Failed (o_order_id o) (get_default (o_phone o) "") (o_customer_name o)
           status b.

Definition record_status (o : order) (status : Z) (b : body)
    (r : BatchResult) : BatchResult :=
  if is_200_or_201 status then record_success (status_detail o status b) r
  else record_failed (status_detail o status b) r.

(** The gateway call made for order [o] after the effects [tr]. *)
Definition gateway_call (cfg : config) (w : world) (o : order)
    (tr : list event) : outcome (Z * body) * list event :=
  interakt_send_order_status cfg w (order_data_of o)
    (get_default (o_phone o) "") tr.

(** What the statement [if delay_seconds > 0: time.sleep(delay_seconds)]
    does. *)
Definition pause_outcome (w : world) (d : Q) : outcome unit :=
  if positive_delay d then sleep w d else Returns tt.

(** The state one pass of the loop body leaves. *)
Definition after_order (cfg : config) (w : world) (d : Q) (o : order)
    (st : run_state) : run_state :=
  if no_usable_phone (o_phone o) then
    {| results :=
         record_skipped (Skipped (o_order_id o) "No phone number")
           (results st);
       io := io st |}
  else
    match gateway_call cfg w o (io st) with
    | (Raises e, tr) =>
        {| results := record_failed (error_detail o e) (results st);
           io := tr |}
    | (Returns (status, b), tr) =>
        let r := record_status o status b (results st) in
        if positive_delay d then
          match sleep w d with
          | Returns _ => {| results := r; io := (tr ++ [Sleep d])%list |}
          | Raises e =>
              {| results := record_failed (error_detail o e) r; io := tr |}
          end
        else {| results := r; io := tr |}
    end.

(** The records of order [o] once the pause that follows its recording has
    run: unchanged, unless the pause itself raises, which the handler of the
    [try] block records as one more outcome of [o]. *)
Definition after_pause (w : world) (d : Q) (o : order) (r : BatchResult)
    : BatchResult :=
  match pause_outcome w d with
  | Returns _ => r
  | Raises e => record_failed (error_detail o e) r
  end.

Definition pause_events (w : world) (d : Q) : list event :=
  if positive_delay d then
    match sleep w d with
    | Returns _ => [Sleep d]
    | Raises _ => []
    end
  else [].

Definition jane : order :=
  {| o_order_id := "178541";
     o_customer_name := "Jane Doe";
     o_phone := Some "+917588348865";
     o_status := None;
     o_status_id := None;
     o_total := None;
     o_date_added := None;
     o_tracking_url := None |}.

Definition short_phone_order : order :=
  {| o_order_id := "178542";
     o_customer_name := "John Roe";
     o_phone := Some "123";
     o_status := None;
     o_status_id := None;
     o_total := None;
     o_date_added := None;
     o_tracking_url := None |}.

(** A messaging API that answers every request with [status] and the JSON
    text [data], and a clock on which every pause completes. *)
Definition answering (status : Z) (data : string) : world :=
  {| post := fun _ _ _ =>
       Returns {| status_code := status; resp_text := data;
                  resp_json := Some data |};
     sleep := fun _ => Returns tt |}.

(** A messaging API that cannot be reached. *)
Definition unreachable : world :=
  {| post := fun _ _ _ => Raises "Connection refused";
     sleep := fun _ => Returns tt |}.

(** A clock as [time.sleep] has it: a pause of more than [2^63 - 1]
    nanoseconds raises [OverflowError]. *)
Definition overflowing_clock (d : Q) : outcome unit :=
  if Qle_bool (d * 1000000000) 9223372036854775807 then Returns tt
  else Raises "timestamp too large to convert to C _PyTime_t".

Definition answering_overflowing (status : Z) (data : string) : world :=
  {| post := post (answering status data); sleep := overflowing_clock |}.

Definition fresh_run (orders : list order) : run_state :=
  {| results := initial_results orders; io := [] |}.

Definition counted (r : BatchResult) : nat := success r + failed r + skipped r.

Definition credential_fault : string := "INTERAKT_API_KEY not set in .env".

(** The record a run without credential leaves for an order. *)
Definition uncredentialed_detail (o : order) : detail :=
  if no_usable_phone (o_phone o) then
    Skipped (o_order_id o) "No phone number"
  else error_detail o credential_fault.

Definition usable_phone (o : order) : bool :=
  negb (no_usable_phone (o_phone o)).

Definition unusable_phone (o : order) : bool := no_usable_phone (o_phone o).

Definition no_credential : config :=
  {| INTERAKT_API_KEY := None; DEFAULT_COUNTRY_CODE := "+91" |}.

(** The effects of the attempt on one order after the effects [tr], for a
    positive delay: none for a skipped order or without credential; else the
    request, followed, when the request was answered, by the pause that
    [time.sleep] makes unless it raises. *)
Definition attempt_events (cfg : config) (w : world) (d : Q) (o : order)
    (tr : list event) : list event :=
  if no_usable_phone (o_phone o) then []
  else if api_key_missing cfg then []
  else
    let authorization := "Basic " ++ or_empty (INTERAKT_API_KEY cfg) in
    let p := build_payload cfg (order_data_of o) (get_default (o_phone o) "")
    in
    Post authorization p
    :: match post w tr authorization p with
       | Returns _ =>
           match sleep w d with
           | Returns _ => [Sleep d]
           | Raises _ => []
           end
       | Raises _ => []
       end.

Fixpoint batch_trace (cfg : config) (w : world) (d : Q)
    (orders : list order) (tr : list event) : list event :=
  match orders with
  | [] => tr
  | o :: rest =>
      batch_trace cfg w d rest (tr ++ attempt_events cfg w d o tr)%list
  end.

Definition no_phone_row : row :=
  {| r_order_id := 9;
     r_firstname := None;
     r_lastname := None;
     r_order_phone := Some "12345";
     r_date_added := None;
     r_total := None;
     r_order_status_id := Some 5%Z;
     r_status_name := Some "Complete";
     r_customer_phone := Some "07588348865" |}.

Definition no_phone_database : database :=
  {| connect := Returns tt;
     fetchone := fun _ => Returns None;
     fetchall := fun _ _ _ => Returns [no_phone_row];
     close := Returns tt |}.

Definition dry_run_request : automation_request :=
  {| limit := Some 10%Z;
     order_status_id := None;
     days_back := Some 7%Z;
     delay_seconds := 1;
     dry_run := true |}.

(* ------------------------------------------------------------------ *)
(** ** app.py: the remaining endpoints *)
(* ------------------------------------------------------------------ *)

(** [verify_auth_header]: [auth] is the [Authorization] header, [None] when
    the request carries none. *)
Definition verify_auth_header (WEBHOOK_SECRET : string)
    (auth : option string) : bool :=
  let auth := get_default auth "" in
  let prefix := "Bearer " in
  if negb (PyStr.startswith prefix auth) then false
  else
    let token := PyStr.strip (PyStr.drop (String.length prefix) auth) in
    String.eqb token WEBHOOK_SECRET.

(** The JSON answers of [order_status]. *)
Inductive order_status_response : Type :=
| BadRequest (error : string)
| DatabaseError (order_id message debug_hint : string)
| OrderNotFound (order_id message debug_hint : string)
| PhoneMismatch (order_id message : string)
| OrderSent (order : order_data) (whatsapp_status_code : Z)
            (interakt_response : body).

Definition order_status_code (a : order_status_response) : Z :=
  match a with
  | BadRequest _ => 400
  | DatabaseError _ _ _ => 500
  | OrderNotFound _ _ _ => 404
  | PhoneMismatch _ _ => 403
  | OrderSent _ status _ => status
  end.

(** [order_status]: [order_id] and [phone] are the query arguments, [None]
    when absent; [py_int] is the builtin [int] on strings, [None] standing
    for [ValueError]. *)
Definition order_status (py_int : string -> option Z) (cfg : config)
    (w : world) (db : database) (order_id phone : option string)
    (tr : list event) : outcome order_status_response * list event :=
  if negb (PyStr.truthy (get_default order_id "")) then
    (Returns (BadRequest "order_id required"), tr)
  else if negb (PyStr.truthy (get_default phone "")) then
    (Returns (BadRequest "phone required"), tr)
  else
    let order_id := get_default order_id "" in
    let phone := get_default phone "" in
    match py_int order_id with
    | None => (Returns (BadRequest "order_id must be integer"), tr)
    | Some order_id_int =>
        match fetch_order_with_validation db order_id_int phone with
        | Raises e =>
            (Returns
               (DatabaseError order_id ("Database error: " ++ e)
                  ("Check /api/debug/order/" ++ PyStr.of_int order_id_int
                   ++ " for more details")), tr)
        | Returns (None, _) =>
            (Returns
               (OrderNotFound order_id "Order not found in database"
                  ("Check /api/debug/order/" ++ PyStr.of_int order_id_int
                   ++ " to verify order exists and table prefix")), tr)
        | Returns (Some od, authorized) =>
            if negb authorized then
              (Returns
                 (PhoneMismatch (od_order_id od)
                    "Phone number does not match this order"), tr)
            else
              match interakt_send_order_status cfg w od phone tr with
              | (Raises e, tr') => (Raises e, tr')
              | (Returns (status, interakt_resp), tr') =>
                  (Returns (OrderSent od status interakt_resp), tr')
              end
        end
    end.

(** The JSON answers of [automate_preview]. *)
Inductive preview_response : Type :=
| Preview (orders_found : nat) (orders : list order)
          (rq_limit rq_status rq_days : option Z)
| PreviewFailed (error : string).

Definition preview_status (a : preview_response) : Z :=
  match a with
  | Preview _ _ _ _ _ => 200
  | PreviewFailed _ => 500
  end.

Definition automate_preview (db : database)
    (limit order_status_id days_back : option Z) : preview_response :=
  match fetch_orders_for_automation db limit order_status_id days_back with
  | Raises e => PreviewFailed e
  | Returns orders =>
      Preview (List.length orders) orders limit order_status_id days_back
  end.

(* ------------------------------------------------------------------ *)
(** ** Further definitions used by the statements *)
(* ------------------------------------------------------------------ *)

Definition not_space (ch : ascii) : bool := negb (PyStr.isspace ch).

Definition not_digit (ch : ascii) : bool := negb (PyStr.isdigit ch).

Definition is_post (e : event) : bool :=
  match e with Post _ _ => true | Sleep _ => false end.

Definition is_sleep (e : event) : bool :=
  match e with Post _ _ => false | Sleep _ => true end.

Definition is_skipped (x : detail) : bool :=
  match x with Skipped _ _ => true | _ => false end.

Definition is_success (x : detail) : bool :=
  match x with Success _ _ _ _ => true | _ => false end.

Definition is_failed_or_error (x : detail) : bool :=
  match x with Failed _ _ _ _ _ | Error _ _ _ _ => true | _ => false end.

(** The counters of a result agree with its details. *)
Definition counts_agree (r : BatchResult) : Prop :=
  success r = List.length (filter is_success (details r))
  /\ failed r = List.length (filter is_failed_or_error (details r))
  /\ skipped r = List.length (filter is_skipped (details r)).

(** A row the automation keeps: its phone has at least 10 characters once
    trimmed. *)
Definition row_kept (r : row) : bool :=
  negb (no_usable_phone (Some (row_phone r))).

(** An [int] that reads plain decimal numerals, for the examples. *)
Definition decimal_int (s : string) : option Z :=
  option_map Z.of_int (NilZero.int_of_string s).

Definition faulty_database : database :=
  {| connect := Raises "Access denied";
     fetchone := fun _ => Returns None;
     fetchall := fun _ _ _ => Returns [];
     close := Returns tt |}.

Definition send_request : automation_request :=
  {| limit := None;
     order_status_id := None;
     days_back := None;
     delay_seconds := 0;
     dry_run := false |}.

(** The head of a left-trimmed string is not a space. *)
Definition head_not_space (s : string) : bool :=
  match s with
  | EmptyString => true
  | String ch _ => negb (PyStr.isspace ch)
  end.

Definition count_records (p : detail -> bool) (l : list detail) : nat :=
  List.length (filter p l).

Definition count_events (p : event -> bool) (l : list event) : nat :=
  List.length (filter p l).

(* ------------------------------------------------------------------ *)
(** ** Facts about the string operations *)
(* ------------------------------------------------------------------ *)

Section StringFacts.

Variable keep : ascii -> bool.

Lemma truthy_false_iff (s : string) : PyStr.truthy s = false <-> s = "".
Proof. destruct s; simpl; split; congruence. Qed.

Lemma truthy_true_iff (s : string) : PyStr.truthy s = true <-> s <> "".
Proof. destruct s; simpl; split; congruence. Qed.

Lemma all_filter (s : string) : PyStr.all keep (PyStr.filter keep s) = true.
Proof.
  induction s as [|ch rest IH]; simpl; [reflexivity|].
  destruct (keep ch) eqn:K; simpl; [rewrite K|]; exact IH.
Qed.

Lemma filter_fixed (s : string) :
  PyStr.all keep s = true -> PyStr.filter keep s = s.
Proof.
  induction s as [|ch rest IH]; simpl; [reflexivity|].
  intros H. apply andb_true_iff in H as [K R].
  rewrite K, (IH R). reflexivity.
Qed.

Lemma filter_idempotent (s : string) :
  PyStr.filter keep (PyStr.filter keep s) = PyStr.filter keep s.
Proof. apply filter_fixed, all_filter. Qed.

Lemma all_weaken (q : ascii -> bool) (s : string) :
  (forall ch, keep ch = true -> q ch = true) ->
  PyStr.all keep s = true -> PyStr.all q s = true.
Proof.
  intros W. induction s as [|ch rest IH]; simpl; [reflexivity|].
  intros H. apply andb_true_iff in H as [K R].
  rewrite (W _ K), (IH R). reflexivity.
Qed.

Lemma all_drop (n : nat) (s : string) :
  PyStr.all keep s = true -> PyStr.all keep (PyStr.drop n s) = true.
Proof.
  revert s. induction n as [|n IH]; intros s H; [exact H|].
  destruct s as [|ch rest]; simpl; [reflexivity|].
  simpl in H. apply andb_true_iff in H as [_ R]. exact (IH _ R).
Qed.

End StringFacts.

Lemma length_drop (n : nat) (s : string) :
  String.length (PyStr.drop n s) = String.length s - n.
Proof.
  revert s. induction n as [|n IH]; intros s; simpl.
  - now rewrite Nat.sub_0_r.
  - destruct s as [|ch rest]; simpl; [reflexivity|apply IH].
Qed.

Lemma last_whole (n : nat) (s : string) :
  String.length s <= n -> PyStr.last n s = s.
Proof.
  intros H. unfold PyStr.last.
  replace (String.length s - n) with 0 by lia. reflexivity.
Qed.

Lemma length_last (n : nat) (s : string) :
  String.length (PyStr.last n s) = Nat.min n (String.length s).
Proof. unfold PyStr.last. rewrite length_drop. lia. Qed.

(** A slice [s[-n:]] of a string shorter than [n] can only equal the slice of
    another string when the two strings are the same. *)
Lemma last_short_eq (n : nat) (s t : string) :
  String.length s < n -> PyStr.last n s = PyStr.last n t -> s = t.
Proof.
  intros Hs E.
  assert (L := f_equal String.length E).
  rewrite !length_last in L.
  rewrite (last_whole n s) in E by lia.
  rewrite (last_whole n t) in E by lia.
  exact E.
Qed.

Example strip_trims_both_ends : PyStr.strip "  75883 48865 " = "75883 48865".
Proof. reflexivity. Qed.

Example last_of_long_and_short :
  PyStr.last 9 "07588348865" = "588348865" /\ PyStr.last 9 "123" = "123".
Proof. split; reflexivity. Qed.

Example of_int_decimal : PyStr.of_int 178541 = "178541".
Proof. reflexivity. Qed.

Lemma isdigit_cases (ch : ascii) :
  PyStr.isdigit ch =
  PyStr.isdecimal ch
  || Ascii.eqb ch "178" || Ascii.eqb ch "179" || Ascii.eqb ch "185".
Proof.
  destruct ch as [[] [] [] [] [] [] [] []]; reflexivity.
Qed.

(* ------------------------------------------------------------------ *)
(** ** The phone normalizer and the phone matcher *)
(* ------------------------------------------------------------------ *)

Lemma normalize_phone_digits (x : option string) :
  PyStr.all PyStr.isdigit (normalize_phone x) = true.
Proof.
  destruct x as [p|]; simpl; [|reflexivity].
  destruct (PyStr.truthy p); simpl; [apply all_filter|reflexivity].
Qed.

Lemma normalize_phone_fixed (s : string) :
  PyStr.all PyStr.isdigit s = true -> normalize_phone (Some s) = s.
Proof.
  intros H. unfold normalize_phone.
  destruct s as [|ch rest]; [reflexivity|].
  simpl PyStr.truthy. simpl negb. cbv iota. now apply filter_fixed.
Qed.

(** C10, as stated, fails: the normalizer keeps every character on which
    [str.isdigit] holds, and the superscript two (U+00B2) is such a character
    without being a decimal digit. *)
Lemma normalize_phone_keeps_superscript :
  normalize_phone (Some (String "178" "")) = String "178" ""
  /\ PyStr.all PyStr.isdecimal (normalize_phone (Some (String "178" "")))
     = false.
Proof. split; reflexivity. Qed.

(** C10 (amended): the phone normalizer is total; its result holds only
    characters accepted by [str.isdigit], that is decimal digits and the
    superscript digits; a null or empty input gives the empty string; and
    normalizing a normalized phone changes nothing. *)
Theorem normalize_phone_idempotent (x : option string) :
  PyStr.all decimal_or_superscript (normalize_phone x) = true
  /\ normalize_phone None = ""
  /\ normalize_phone (Some "") = ""
  /\ normalize_phone (Some (normalize_phone x)) = normalize_phone x.
Proof.
  refine (conj _ (conj eq_refl (conj eq_refl _))).
  - apply (all_weaken PyStr.isdigit); [|apply normalize_phone_digits].
    intros ch H. unfold decimal_or_superscript.
    now rewrite <- isdigit_cases.
  - apply normalize_phone_fixed, normalize_phone_digits.
Qed.

Lemma phone_matches_unfold (db wa : option string) :
  phone_matches db wa =
  if negb (PyStr.truthy (normalize_phone db))
     || negb (PyStr.truthy (normalize_phone wa)) then false
  else if String.eqb (normalize_phone db) (normalize_phone wa) then true
  else String.eqb (PyStr.last 9 (normalize_phone db))
                  (PyStr.last 9 (normalize_phone wa)).
Proof. reflexivity. Qed.

(** C2: with an empty canonical form the matcher answers false; with two
    nonempty, different canonical forms it answers true exactly when their
    last nine characters agree, so that a form of fewer than nine digits
    never matches a different form. *)
Theorem phone_matches_contract (db_phone wa_phone : option string) :
  (normalize_phone db_phone = "" \/ normalize_phone wa_phone = "" ->
   phone_matches db_phone wa_phone = false)
  /\ (normalize_phone db_phone <> "" ->
      normalize_phone wa_phone <> "" ->
      normalize_phone db_phone <> normalize_phone wa_phone ->
      (phone_matches db_phone wa_phone = true <->
       PyStr.last 9 (normalize_phone db_phone)
       = PyStr.last 9 (normalize_phone wa_phone))
      /\ (String.length (normalize_phone db_phone) < 9
          \/ String.length (normalize_phone wa_phone) < 9 ->
          phone_matches db_phone wa_phone = false)).
Proof.
  rewrite phone_matches_unfold.
  set (d := normalize_phone db_phone). set (w := normalize_phone wa_phone).
  split.
  - intros [E|E]; rewrite E; simpl; [reflexivity|].
    now rewrite orb_true_r.
  - intros Hd Hw Hdw.
    apply truthy_true_iff in Hd, Hw. rewrite Hd, Hw. simpl.
    destruct (String.eqb_spec d w) as [E|_]; [contradiction|].
    split.
    + apply String.eqb_eq.
    + intros Hshort. apply String.eqb_neq. intros E.
      destruct Hshort as [S|S].
      * exact (Hdw (last_short_eq 9 d w S E)).
      * exact (Hdw (eq_sym (last_short_eq 9 w d S (eq_sym E)))).
Qed.

Lemma phone_matches_contract_witness :
  phone_matches None (Some "7588348865") = false
  /\ phone_matches (Some "+917588348865") (Some "07588348865") = true
  /\ phone_matches (Some "12345") (Some "0012345") = false.
Proof.
  split; [|split].
  - apply (proj1 (phone_matches_contract None (Some "7588348865"))).
    left. reflexivity.
  - destruct (phone_matches_contract
                (Some "+917588348865") (Some "07588348865")) as [_ H].
    destruct H as [H _]; [discriminate|discriminate|discriminate|].
    apply H. reflexivity.
  - destruct (phone_matches_contract
                (Some "12345") (Some "0012345")) as [_ H].
    destruct H as [_ H]; [discriminate|discriminate|discriminate|].
    apply H. left. simpl. lia.
Defined.

(** C3, as stated, fails: two phones whose canonical forms are both empty
    have equal canonical forms and do not match. *)
Lemma phone_matches_equal_empty_forms :
  normalize_phone (Some "") = normalize_phone (Some "n/a")
  /\ phone_matches (Some "") (Some "n/a") = false.
Proof. split; reflexivity. Qed.

(** C3 (amended): two phones whose canonical forms are equal and not empty
    match. *)
Theorem phone_matches_equal_forms (db_phone wa_phone : option string) :
  normalize_phone db_phone = normalize_phone wa_phone ->
  normalize_phone db_phone <> "" ->
  phone_matches db_phone wa_phone = true.
Proof.
  intros E N. rewrite phone_matches_unfold, <- E.
  apply truthy_true_iff in N. rewrite N. simpl.
  now rewrite String.eqb_refl.
Qed.

Lemma phone_matches_equal_forms_witness :
  phone_matches (Some "+91 75883-48865") (Some "917588348865") = true.
Proof.
  apply phone_matches_equal_forms.
  - reflexivity.
  - discriminate.
Defined.

(* ------------------------------------------------------------------ *)
(** ** The order authorizer *)
(* ------------------------------------------------------------------ *)

Lemma row_phone_stored_phone (r : row) : row_phone r = stored_phone r.
Proof.
  unfold row_phone, stored_phone, or_empty, or_default, py_or.
  destruct (r_order_phone r) as [[|ch rest]|];
    destruct (r_customer_phone r) as [[|ch' rest']|]; reflexivity.
Qed.

(** C4: without a data-access fault the authorizer returns (absent, false)
    when no row exists, and otherwise the order together with the verdict of
    the phone matcher on the stored phone; it raises exactly when there is a
    data-access fault. *)
Theorem fetch_order_with_validation_contract
    (db : database) (order_id : Z) (wa_phone : string) :
  (data_access_fault db order_id = false ->
   (fetchone db order_id = Returns None ->
    fetch_order_with_validation db order_id wa_phone
    = Returns (None, false))
   /\ (forall r, fetchone db order_id = Returns (Some r) ->
       fetch_order_with_validation db order_id wa_phone
       = Returns (Some (row_order_data r),
                  phone_matches (Some (stored_phone r)) (Some wa_phone))))
  /\ raised (fetch_order_with_validation db order_id wa_phone)
     = data_access_fault db order_id.
Proof.
  unfold fetch_order_with_validation, data_access_fault, finally_close.
  split.
  - intros NF.
    destruct (connect db); [|discriminate].
    destruct (close db); [|simpl in NF; now rewrite orb_true_r in NF].
    split.
    + intros ->. reflexivity.
    + intros r ->. now rewrite row_phone_stored_phone.
  - destruct (connect db); [|reflexivity].
    destruct (close db); simpl.
    + destruct (fetchone db order_id) as [[r|]|]; reflexivity.
    + now rewrite orb_true_r.
Qed.

Lemma fetch_order_with_validation_contract_witness :
  fetch_order_with_validation sample_database 7 "+917588348865"
  = Returns (None, false)
  /\ fetch_order_with_validation sample_database 178541 "+917588348865"
     = Returns (Some (row_order_data sample_row), true)
  /\ fetch_order_with_validation sample_database 178541 "+917588348860"
     = Returns (Some (row_order_data sample_row), false).
Proof.
  split; [|split].
  - apply (fetch_order_with_validation_contract sample_database 7);
      reflexivity.
  - apply (fetch_order_with_validation_contract sample_database 178541
             "+917588348865"); reflexivity.
  - apply (fetch_order_with_validation_contract sample_database 178541
             "+917588348860"); reflexivity.
Defined.

(* ------------------------------------------------------------------ *)
(** ** The country-code split *)
(* ------------------------------------------------------------------ *)

Lemma startswith_1_not_91 (s : string) :
  PyStr.startswith "1" s = true -> PyStr.startswith "91" s = false.
Proof.
  destruct s as [|a rest]; [discriminate|].
  cbn [PyStr.startswith].
  destruct (Ascii.eqb_spec "1" a) as [<-|]; [reflexivity|discriminate].
Qed.

(** C8: the split of a destination phone, on the characters that cleaning
    keeps.  After a leading plus sign, "91" with at least 12 characters gives
    "+91", "1" with at least 11 gives "+1", and anything else the default
    country code with everything after the plus sign; without a leading plus
    sign, "91" with at least 12 characters gives "+91" and anything else the
    default country code with the whole cleaned phone.  The subscriber number
    holds only kept characters, and only digits when no plus sign follows the
    first character. *)
Theorem parse_phone_number_split (cfg : config) (phone : string) :
  let c := cleaned phone in
  let r := PyStr.drop 1 c in
  (PyStr.startswith "+" c = true ->
   (PyStr.startswith "91" r = true -> 12 <= String.length r ->
    parse_phone_number cfg phone = ("+91", PyStr.drop 2 r))
   /\ (PyStr.startswith "1" r = true -> 11 <= String.length r ->
       parse_phone_number cfg phone = ("+1", PyStr.drop 1 r))
   /\ (PyStr.startswith "91" r && (12 <=? String.length r) = false ->
       PyStr.startswith "1" r && (11 <=? String.length r) = false ->
       parse_phone_number cfg phone = (DEFAULT_COUNTRY_CODE cfg, r)))
  /\ (PyStr.startswith "+" c = false ->
      (PyStr.startswith "91" c = true -> 12 <= String.length c ->
       parse_phone_number cfg phone = ("+91", PyStr.drop 2 c))
      /\ (PyStr.startswith "91" c && (12 <=? String.length c) = false ->
          parse_phone_number cfg phone = (DEFAULT_COUNTRY_CODE cfg, c)))
  /\ PyStr.all digit_or_plus (snd (parse_phone_number cfg phone)) = true
  /\ (PyStr.all PyStr.isdigit (after_plus phone) = true ->
      PyStr.all PyStr.isdigit (snd (parse_phone_number cfg phone)) = true).
Proof.
  intros c r.
  assert (Hc : PyStr.all digit_or_plus c = true) by apply all_filter.
  unfold parse_phone_number, after_plus. fold (cleaned phone). fold c. fold r.
  destruct (PyStr.startswith "+" c) eqn:P.
  - split; [intros _|split; [discriminate|]].
    + split; [|split].
      * intros S L. apply Nat.leb_le in L. now rewrite S, L.
      * intros S L. apply Nat.leb_le in L.
        now rewrite (startswith_1_not_91 r S), S, L.
      * intros N91 N1. rewrite N91, N1.
        rewrite andb_comm in N91. now rewrite N91.
    + assert (Hr : PyStr.all digit_or_plus r = true) by now apply all_drop.
      destruct (PyStr.startswith "91" r && (12 <=? String.length r)) eqn:A;
        [|destruct (PyStr.startswith "1" r && (11 <=? String.length r));
          [|rewrite andb_comm, A]];
        cbn [snd]; (split; [|intros D]);
        first [ now apply all_drop | assumption ].
  - split; [discriminate|split; [intros _|]].
    + split.
      * intros S L. apply Nat.leb_le in L. now rewrite S, L.
      * intros N. now rewrite N.
    + destruct (PyStr.startswith "91" c && (12 <=? String.length c));
        cbn [snd]; (split; [|intros D]);
        first [ now apply all_drop | assumption ].
Qed.

Lemma parse_phone_number_split_witness :
  parse_phone_number sample_config " +91 75883-48865 " = ("+91", "7588348865")
  /\ parse_phone_number sample_config "+1 (202) 555-0123"
     = ("+1", "2025550123")
  /\ parse_phone_number sample_config "+447911123456"
     = ("+91", "447911123456")
  /\ parse_phone_number sample_config "917588348865" = ("+91", "7588348865")
  /\ parse_phone_number sample_config "75883 48865" = ("+91", "7588348865")
  /\ PyStr.all PyStr.isdigit
       (snd (parse_phone_number sample_config "+447911123456")) = true.
Proof.
  refine (conj _ (conj _ (conj _ (conj _ (conj _ _))))).
  - apply (parse_phone_number_split sample_config " +91 75883-48865 ");
      [reflexivity|reflexivity|simpl; lia].
  - apply (parse_phone_number_split sample_config "+1 (202) 555-0123");
      [reflexivity|reflexivity|simpl; lia].
  - apply (parse_phone_number_split sample_config "+447911123456");
      reflexivity.
  - apply (parse_phone_number_split sample_config "917588348865");
      [reflexivity|reflexivity|simpl; lia].
  - apply (parse_phone_number_split sample_config "75883 48865");
      reflexivity.
  - apply (parse_phone_number_split sample_config "+447911123456").
    reflexivity.
Defined.

(* ------------------------------------------------------------------ *)
(** ** The batch sender: one order *)
(* ------------------------------------------------------------------ *)

Section OneOrder.

Variables (cfg : config) (w : world) (d : Q).

(** The loop body never raises: every exception of the [try] block is
    handled, and it leaves the state [after_order]. *)
Lemma process_order_run (o : order) (st : run_state) :
  process_order cfg w d o st = (Returns tt, after_order cfg w d o st).
Proof.
  unfold process_order, after_order, gateway_call.
  destruct (no_usable_phone (o_phone o)); [reflexivity|].
  unfold try_except, bind, with_world.
  destruct (interakt_send_order_status cfg w (order_data_of o)
              (get_default (o_phone o) "") (io st)) as [[[status b]|e] tr];
    [|reflexivity].
  unfold record_status, status_detail, with_results, time_sleep, with_world,
    ret.
  destruct (is_200_or_201 status); cbn [results io];
    destruct (positive_delay d); try reflexivity;
    destruct (sleep w d); reflexivity.
Qed.

Lemma for_each_run (orders : list order) (st : run_state) :
  for_each orders (process_order cfg w d) st
  = (Returns tt, fold_left (fun s o => after_order cfg w d o s) orders st).
Proof.
  revert st. induction orders as [|o rest IH]; intros st; [reflexivity|].
  cbn [for_each fold_left]. unfold bind at 1.
  rewrite process_order_run. apply IH.
Qed.

Lemma send_batch_run (orders : list order) (tr : list event) :
  send_batch_whatsapp_messages cfg w orders d tr
  = let st := fold_left (fun s o => after_order cfg w d o s) orders
                {| results := initial_results orders; io := tr |} in
    (Returns (results st), io st).
Proof.
  unfold send_batch_whatsapp_messages. now rewrite for_each_run.
Qed.

(** What the gateway call adds to the effects: nothing when the credential
    is missing, else the one request. *)
Lemma gateway_call_events (o : order) (tr : list event) :
  snd (gateway_call cfg w o tr)
  = if api_key_missing cfg then tr
    else (tr ++ [Post ("Basic " ++ or_empty (INTERAKT_API_KEY cfg))
                   (build_payload cfg (order_data_of o)
                      (get_default (o_phone o) ""))])%list.
Proof.
  unfold gateway_call, interakt_send_order_status.
  destruct (api_key_missing cfg); [reflexivity|].
  destruct (post w tr _ _); reflexivity.
Qed.

End OneOrder.

(** The ["status"] key of the records the loop body writes. *)
Lemma recorded_status (o : order) (status : Z) (b : body) (e : string) :
  detail_status (status_detail o status b)
  = (if is_200_or_201 status then "success" else "failed")
  /\ detail_status (error_detail o e) = "error"
  /\ detail_status (Skipped (o_order_id o) "No phone number") = "skipped".
Proof.
  unfold status_detail. destruct (is_200_or_201 status); now repeat split.
Qed.

Lemma after_order_skipped cfg w d o st :
  no_usable_phone (o_phone o) = true ->
  after_order cfg w d o st
  = {| results :=
         record_skipped (Skipped (o_order_id o) "No phone number")
           (results st);
       io := io st |}.
Proof. unfold after_order. now intros ->. Qed.

Lemma after_order_raised cfg w d o st e :
  no_usable_phone (o_phone o) = false ->
  fst (gateway_call cfg w o (io st)) = Raises e ->
  after_order cfg w d o st
  = {| results := record_failed (error_detail o e) (results st);
       io := snd (gateway_call cfg w o (io st)) |}.
Proof.
  unfold after_order. intros ->.
  destruct (gateway_call cfg w o (io st)) as [[[s b]|e'] tr]; simpl;
    [discriminate|congruence].
Qed.

Lemma after_order_returned cfg w d o st status b :
  no_usable_phone (o_phone o) = false ->
  fst (gateway_call cfg w o (io st)) = Returns (status, b) ->
  after_order cfg w d o st
  = {| results := after_pause w d o (record_status o status b (results st));
       io := (snd (gateway_call cfg w o (io st)) ++ pause_events w d)%list |}.
Proof.
  unfold after_order, after_pause, pause_events, pause_outcome. intros ->.
  destruct (gateway_call cfg w o (io st)) as [[[s' b']|e'] tr]; simpl;
    [|discriminate].
  intros [= -> ->].
  destruct (positive_delay d); [|now rewrite app_nil_r].
  destruct (sleep w d); [reflexivity|now rewrite app_nil_r].
Qed.

(** C5: the loop body on one order.  An order without a usable phone is
    recorded as skipped and no request is made.  Otherwise the gateway is
    called: a 200 or 201 status is recorded as success, another status as
    failed with the response body, and an exception as an "error" record
    counted under failed.  In every case the loop body returns normally, so
    the loop goes on with the remaining orders. *)
Theorem process_order_outcomes
    (cfg : config) (w : world) (d : Q) (o : order) (st : run_state) :
  let st' := snd (process_order cfg w d o st) in
  let call := gateway_call cfg w o (io st) in
  let phone := get_default (o_phone o) "" in
  (forall rest,
     for_each (o :: rest) (process_order cfg w d) st
     = for_each rest (process_order cfg w d) st')
  /\ (no_usable_phone (o_phone o) = true ->
      results st'
      = record_skipped (Skipped (o_order_id o) "No phone number") (results st)
      /\ io st' = io st)
  /\ (no_usable_phone (o_phone o) = false ->
      (forall status b, fst call = Returns (status, b) ->
         status = 200%Z \/ status = 201%Z ->
         results st'
         = after_pause w d o
             (record_success
                (Success (o_order_id o) phone (o_customer_name o) status)
                (results st))
         /\ io st' = (snd call ++ pause_events w d)%list)
      /\ (forall status b, fst call = Returns (status, b) ->
          status <> 200%Z -> status <> 201%Z ->
          results st'
          = after_pause w d o
              (record_failed
                 (Failed (o_order_id o) phone (o_customer_name o) status b)
                 (results st))
          /\ io st' = (snd call ++ pause_events w d)%list)
      /\ (forall e, fst call = Raises e ->
          results st'
          = record_failed
              (Error (o_order_id o) phone (o_customer_name o) e) (results st)
          /\ io st' = snd call)
      /\ (api_key_missing cfg = false ->
          exists p later,
            io st'
            = (io st
               ++ Post ("Basic " ++ or_empty (INTERAKT_API_KEY cfg)) p
                  :: later)%list)).
Proof.
  intros st' call phone. subst st' call phone.
  rewrite process_order_run. cbn [snd].
  split; [|split; [|intros NS; split; [|split; [|split]]]].
  - intros rest. cbn [for_each]. unfold bind at 1.
    now rewrite process_order_run.
  - intros S. now rewrite (after_order_skipped _ _ _ _ _ S).
  - intros status b C OK.
    rewrite (after_order_returned _ _ _ _ _ _ _ NS C). cbn [results io].
    unfold record_status, status_detail.
    replace (is_200_or_201 status) with true; [now split|].
    unfold is_200_or_201. destruct OK as [-> | ->]; reflexivity.
  - intros status b C N200 N201.
    rewrite (after_order_returned _ _ _ _ _ _ _ NS C). cbn [results io].
    unfold record_status, status_detail.
    replace (is_200_or_201 status) with false; [now split|].
    unfold is_200_or_201. symmetry. apply orb_false_iff.
    split; now apply Z.eqb_neq.
  - intros e C. now rewrite (after_order_raised _ _ _ _ _ _ NS C).
  - intros K.
    exists (build_payload cfg (order_data_of o) (get_default (o_phone o) "")).
    destruct (fst (gateway_call cfg w o (io st))) as [[status b]|e] eqn:C.
    + rewrite (after_order_returned _ _ _ _ _ _ _ NS C). cbn [io].
      rewrite gateway_call_events, K. exists (pause_events w d).
      now rewrite <- app_assoc.
    + rewrite (after_order_raised _ _ _ _ _ _ NS C). cbn [io].
      rewrite gateway_call_events, K. now exists [].
Qed.

Lemma process_order_outcomes_witness :
  (let st' := snd (process_order sample_config (answering 200 "{}") 1
                     short_phone_order (fresh_run [short_phone_order])) in
   details (results st') = [Skipped "178542" "No phone number"]
   /\ skipped (results st') = 1 /\ io st' = [])
  /\ (let st' := snd (process_order sample_config (answering 201 "{}") 1
                        jane (fresh_run [jane])) in
      details (results st')
      = [Success "178541" "+917588348865" "Jane Doe" 201]
      /\ success (results st') = 1)
  /\ (let st' := snd (process_order sample_config
                        (answering 500 "{error:x}") 1
                        jane (fresh_run [jane])) in
      details (results st')
      = [Failed "178541" "+917588348865" "Jane Doe" 500 (Json "{error:x}")]
      /\ failed (results st') = 1)
  /\ (let st' := snd (process_order sample_config unreachable 1
                        jane (fresh_run [jane])) in
      details (results st')
      = [Error "178541" "+917588348865" "Jane Doe" "Connection refused"]
      /\ failed (results st') = 1).
Proof.
  refine (conj _ (conj _ (conj _ _))); cbv zeta.
  - destruct (process_order_outcomes sample_config (answering 200 "{}") 1
                short_phone_order (fresh_run [short_phone_order]))
      as (_ & S & _).
    destruct (S eq_refl) as [R I]. rewrite R, I. repeat split.
  - destruct (process_order_outcomes sample_config (answering 201 "{}") 1
                jane (fresh_run [jane])) as (_ & _ & C).
    destruct (C eq_refl) as (OK & _).
    destruct (OK 201%Z (Json "{}") eq_refl (or_intror eq_refl)) as [R _].
    rewrite R. split; reflexivity.
  - destruct (process_order_outcomes sample_config
                (answering 500 "{error:x}") 1 jane (fresh_run [jane]))
      as (_ & _ & C).
    destruct (C eq_refl) as (_ & KO & _).
    destruct (KO 500%Z (Json "{error:x}") eq_refl) as [R _];
      [discriminate|discriminate|].
    rewrite R. split; reflexivity.
  - destruct (process_order_outcomes sample_config unreachable 1
                jane (fresh_run [jane])) as (_ & _ & C).
    destruct (C eq_refl) as (_ & _ & EX & _).
    destruct (EX "Connection refused" eq_refl) as [R _].
    rewrite R. split; reflexivity.
Defined.

(* ------------------------------------------------------------------ *)
(** ** The batch sender: the whole run *)
(* ------------------------------------------------------------------ *)

Lemma after_order_one_record cfg w d o st :
  pause_outcome w d = Returns tt ->
  let st' := after_order cfg w d o st in
  total (results st') = total (results st)
  /\ counted (results st') = S (counted (results st))
  /\ map detail_order_id (details (results st'))
     = (map detail_order_id (details (results st)) ++ [o_order_id o])%list.
Proof.
  intros P. cbv zeta. unfold counted.
  destruct (no_usable_phone (o_phone o)) eqn:NS.
  - rewrite (after_order_skipped _ _ _ _ _ NS). cbn.
    rewrite map_app. repeat split; lia.
  - destruct (fst (gateway_call cfg w o (io st))) as [[status b]|e] eqn:C.
    + rewrite (after_order_returned _ _ _ _ _ _ _ NS C).
      unfold after_pause. rewrite P. cbn [results].
      unfold record_status, status_detail.
      destruct (is_200_or_201 status); cbn; rewrite map_app;
        repeat split; lia.
    + rewrite (after_order_raised _ _ _ _ _ _ NS C). cbn.
      rewrite map_app. repeat split; lia.
Qed.

Lemma batch_one_record_each cfg w d orders st :
  pause_outcome w d = Returns tt ->
  let st' := fold_left (fun s o => after_order cfg w d o s) orders st in
  total (results st') = total (results st)
  /\ counted (results st') = counted (results st) + List.length orders
  /\ map detail_order_id (details (results st'))
     = (map detail_order_id (details (results st))
        ++ map o_order_id orders)%list.
Proof.
  intros P. revert st.
  induction orders as [|o rest IH]; intros st; cbn [fold_left].
  - cbn. rewrite app_nil_r. repeat split; lia.
  - destruct (IH (after_order cfg w d o st)) as (T & N & D).
    destruct (after_order_one_record cfg w d o st P) as (T1 & N1 & D1).
    cbv zeta. rewrite T, N, D, T1, N1, D1. cbn [List.length map].
    rewrite <- app_assoc. repeat split; lia.
Qed.

(** The invariant of a batch run on which no pause raises: the run returns,
    the three counts add up to [total], which is the number of orders, and
    the details hold one record per order, in the order of the input. *)
Lemma send_batch_invariant cfg w d orders tr :
  pause_outcome w d = Returns tt ->
  exists r,
    fst (send_batch_whatsapp_messages cfg w orders d tr) = Returns r
    /\ success r + failed r + skipped r = total r
    /\ total r = List.length orders
    /\ map detail_order_id (details r) = map o_order_id orders.
Proof.
  intros P. rewrite send_batch_run. cbv zeta. cbn [fst].
  eexists. split; [reflexivity|].
  destruct (batch_one_record_each cfg w d orders
              {| results := initial_results orders; io := tr |} P)
    as (T & N & D).
  cbv zeta in T, N, D. unfold counted in N. cbn in T, N, D.
  repeat split; [lia|exact T|exact D].
Qed.

Lemma send_batch_empty cfg w d tr :
  send_batch_whatsapp_messages cfg w [] d tr
  = (Returns {| total := 0; success := 0; failed := 0; skipped := 0;
                details := [] |}, tr).
Proof. reflexivity. Qed.

(** C1 on the code: with a pause that [time.sleep] refuses, an order whose
    message was accepted is recorded twice, as "success" and then, by the
    handler of the [try] block that also encloses the pause, as "error": the
    counts add up to 2 for a total of 1 and two records describe the one
    order. *)
Theorem send_batch_counts_twice_on_pause_fault :
  send_batch_whatsapp_messages sample_config (answering_overflowing 200 "{}")
    [jane] 10000000000 []
  = (Returns
       {| total := 1; success := 1; failed := 1; skipped := 0;
          details :=
            [Success "178541" "+917588348865" "Jane Doe" 200;
             Error "178541" "+917588348865" "Jane Doe"
               "timestamp too large to convert to C _PyTime_t"] |},
     [Post "Basic secret"
        (build_payload sample_config (order_data_of jane) "+917588348865")]).
Proof. reflexivity. Qed.

(* ------------------------------------------------------------------ *)
(** ** A missing credential *)
(* ------------------------------------------------------------------ *)

Lemma interakt_send_without_credential cfg w od phone tr :
  api_key_missing cfg = true ->
  interakt_send_order_status cfg w od phone tr = (Raises credential_fault, tr).
Proof. unfold interakt_send_order_status. now intros ->. Qed.

Lemma batch_without_credential cfg w d orders st :
  api_key_missing cfg = true ->
  fold_left (fun s o => after_order cfg w d o s) orders st
  = {| results :=
         {| total := total (results st);
            success := success (results st);
            failed :=
              failed (results st) + List.length (filter usable_phone orders);
            skipped :=
              skipped (results st)
              + List.length (filter unusable_phone orders);
            details :=
              (details (results st) ++ map uncredentialed_detail orders)%list
         |};
       io := io st |}.
Proof.
  intros K. revert st.
  induction orders as [|o rest IH]; intros [[t s f k ds] tr].
  - cbn. now rewrite !Nat.add_0_r, app_nil_r.
  - cbn [fold_left]. rewrite IH. clear IH.
    unfold after_order, gateway_call.
    rewrite (interakt_send_without_credential _ _ _ _ _ K).
    cbn [filter map]. unfold usable_phone at 2, unusable_phone at 2.
    unfold uncredentialed_detail at 2.
    destruct (no_usable_phone (o_phone o));
      cbn [negb results io total success failed skipped details
           record_skipped record_failed List.length];
      rewrite <- app_assoc; cbn [app]; do 2 f_equal; lia.
Qed.

(** C6, as stated, fails: without credential a batch run does not raise; the
    fault of the send operation is caught for the order and recorded as an
    "error" outcome. *)
Lemma missing_credential_is_caught_per_item :
  fst (interakt_send_order_status no_credential (answering 200 "{}")
         (order_data_of jane) "+917588348865" [])
  = Raises "INTERAKT_API_KEY not set in .env"
  /\ send_batch_whatsapp_messages no_credential (answering 200 "{}") [jane]
       1 []
     = (Returns
          {| total := 1; success := 0; failed := 1; skipped := 0;
             details :=
               [Error "178541" "+917588348865" "Jane Doe"
                  "INTERAKT_API_KEY not set in .env"] |},
        []).
Proof. split; reflexivity. Qed.

(** C6 (amended): without credential the send operation raises at once,
    before any request is made; a batch run catches that fault for each
    order it does not skip, records the order with status "error" and counts
    it under failed, and returns normally without any request or pause. *)
Theorem missing_credential_in_batch
    (cfg : config) (w : world) (d : Q) (orders : list order)
    (tr : list event) :
  api_key_missing cfg = true ->
  (forall od phone,
     interakt_send_order_status cfg w od phone tr
     = (Raises "INTERAKT_API_KEY not set in .env", tr))
  /\ send_batch_whatsapp_messages cfg w orders d tr
     = (Returns
          {| total := List.length orders;
             success := 0;
             failed := List.length (filter usable_phone orders);
             skipped := List.length (filter unusable_phone orders);
             details := map uncredentialed_detail orders |},
        tr).
Proof.
  intros K. split.
  - intros od phone. now apply interakt_send_without_credential.
  - rewrite send_batch_run, (batch_without_credential _ _ _ _ _ K).
    reflexivity.
Qed.

Lemma missing_credential_in_batch_witness :
  send_batch_whatsapp_messages no_credential unreachable
    [jane; short_phone_order; jane] 1 []
  = (Returns
       {| total := 3; success := 0; failed := 2; skipped := 1;
          details :=
            [Error "178541" "+917588348865" "Jane Doe"
               "INTERAKT_API_KEY not set in .env";
             Skipped "178542" "No phone number";
             Error "178541" "+917588348865" "Jane Doe"
               "INTERAKT_API_KEY not set in .env"] |},
     []).
Proof.
  apply (missing_credential_in_batch no_credential unreachable 1
           [jane; short_phone_order; jane] []).
  reflexivity.
Defined.

(* ------------------------------------------------------------------ *)
(** ** Pacing *)
(* ------------------------------------------------------------------ *)

Lemma positive_delay_iff (d : Q) : positive_delay d = true <-> (0 < d)%Q.
Proof.
  unfold positive_delay. rewrite negb_true_iff.
  split.
  - intros H. apply Qnot_le_lt. intros L.
    apply Qle_bool_iff in L. congruence.
  - intros H. destruct (Qle_bool d 0) eqn:L; [|reflexivity].
    apply Qle_bool_iff in L. exfalso. exact (Qlt_not_le _ _ H L).
Qed.

Lemma batch_trace_last cfg w d orders o tr :
  batch_trace cfg w d (orders ++ [o]) tr
  = (batch_trace cfg w d orders tr
     ++ attempt_events cfg w d o (batch_trace cfg w d orders tr))%list.
Proof.
  revert tr. induction orders as [|o' rest IH]; intros tr; [reflexivity|].
  cbn [app batch_trace]. apply IH.
Qed.

Lemma after_order_trace cfg w d o st :
  positive_delay d = true ->
  io (after_order cfg w d o st)
  = (io st ++ attempt_events cfg w d o (io st))%list.
Proof.
  intros P. unfold after_order, attempt_events, gateway_call,
    interakt_send_order_status.
  destruct (no_usable_phone (o_phone o)); [cbn; now rewrite app_nil_r|].
  destruct (api_key_missing cfg); [cbn; now rewrite app_nil_r|].
  destruct (post w (io st) _ _) as [resp|e]; cbn [io].
  - rewrite P. destruct (sleep w d); cbn [io].
    + now rewrite <- app_assoc.
    + reflexivity.
  - reflexivity.
Qed.

Lemma batch_io_trace cfg w d orders st :
  positive_delay d = true ->
  io (fold_left (fun s o => after_order cfg w d o s) orders st)
  = batch_trace cfg w d orders (io st).
Proof.
  intros P. revert st.
  induction orders as [|o rest IH]; intros st; [reflexivity|].
  cbn [fold_left batch_trace]. rewrite IH.
  now rewrite (after_order_trace _ _ _ _ _ P).
Qed.

(** C7, as stated, fails twice: the run pauses after the final order too,
    and it does not pause after an attempt whose call raised, although that
    attempt was not skipped and another order follows. *)
Lemma pause_after_final_order_none_after_fault :
  snd (send_batch_whatsapp_messages sample_config (answering 200 "{}")
         [jane] 1 [])
  = [Post "Basic secret"
       (build_payload sample_config (order_data_of jane) "+917588348865");
     Sleep 1]
  /\ snd (send_batch_whatsapp_messages sample_config unreachable
            [jane; jane] 1 [])
     = [Post "Basic secret"
          (build_payload sample_config (order_data_of jane) "+917588348865");
        Post "Basic secret"
          (build_payload sample_config (order_data_of jane) "+917588348865")].
Proof. split; reflexivity. Qed.

(** C7 (amended): in a batch run with a positive delay the effects are,
    order after order, those of [attempt_events], whatever the gateway and
    the clock do: after every request that was answered, the one for the
    final order included, [time.sleep] is called with the delay and the run
    pauses for it unless [time.sleep] itself raises, in which case no pause
    takes place and the run goes on; nothing follows a skipped order or a
    request that raised. *)
Theorem send_batch_pacing
    (cfg : config) (w : world) (d : Q) (orders : list order)
    (tr : list event) :
  (0 < d)%Q ->
  snd (send_batch_whatsapp_messages cfg w orders d tr)
  = batch_trace cfg w d orders tr
  /\ forall o,
       let before := snd (send_batch_whatsapp_messages cfg w orders d tr) in
       snd (send_batch_whatsapp_messages cfg w (orders ++ [o]) d tr)
       = (before ++ attempt_events cfg w d o before)%list.
Proof.
  intros P. apply positive_delay_iff in P.
  assert (T : forall l,
             snd (send_batch_whatsapp_messages cfg w l d tr)
             = batch_trace cfg w d l tr).
  { intros l. rewrite send_batch_run. cbv zeta. cbn [snd].
    now rewrite (batch_io_trace _ _ _ _ _ P). }
  split; [apply T|].
  intros o. cbv zeta. rewrite !T. apply batch_trace_last.
Qed.

Lemma send_batch_pacing_witness :
  snd (send_batch_whatsapp_messages sample_config (answering 201 "{}")
         [short_phone_order; jane] (1 # 2) [])
  = [Post "Basic secret"
       (build_payload sample_config (order_data_of jane) "+917588348865");
     Sleep (1 # 2)]
  /\ snd (send_batch_whatsapp_messages sample_config
            (answering_overflowing 200 "{}") [jane; short_phone_order]
            10000000000 [])
     = [Post "Basic secret"
          (build_payload sample_config (order_data_of jane) "+917588348865")].
Proof.
  split.
  - refine (eq_trans
              (proj1 (send_batch_pacing sample_config (answering 201 "{}")
                        (1 # 2) [short_phone_order; jane] [] _)) _);
      reflexivity.
  - refine (eq_trans
              (proj1 (send_batch_pacing sample_config
                        (answering_overflowing 200 "{}") 10000000000
                        [jane; short_phone_order] [] _)) _);
      reflexivity.
Defined.

(* ------------------------------------------------------------------ *)
(** ** The automation endpoint *)
(* ------------------------------------------------------------------ *)

(** C9: when the fetch returns no order, the automation answers with the
    not-found response (status 404, success flag false) and performs no
    effect: neither a batch result nor an order list is returned, whatever
    [dry_run] is. *)
Theorem automate_send_messages_no_orders
    (cfg : config) (w : world) (db : database) (rq : automation_request)
    (tr : list event) :
  fetch_orders_for_automation db (limit rq) (order_status_id rq)
    (days_back rq) = Returns [] ->
  automate_send_messages cfg w db rq tr
  = (NoOrdersFound (limit rq) (order_status_id rq) (days_back rq), tr)
  /\ http_status (fst (automate_send_messages cfg w db rq tr)) = 404%Z
  /\ success_flag (fst (automate_send_messages cfg w db rq tr)) = false.
Proof.
  intros F. unfold automate_send_messages. rewrite F. repeat split.
Qed.

Lemma automate_send_messages_no_orders_witness :
  automate_send_messages sample_config (answering 200 "{}") no_phone_database
    dry_run_request []
  = (NoOrdersFound (Some 10%Z) None (Some 7%Z), []).
Proof.
  apply (automate_send_messages_no_orders sample_config (answering 200 "{}")
           no_phone_database dry_run_request []).
  reflexivity.
Defined.

(* ------------------------------------------------------------------ *)
(** ** More facts about the string operations *)
(* ------------------------------------------------------------------ *)

Lemma length_append (a b : string) :
  String.length (a ++ b) = String.length a + String.length b.
Proof. induction a as [|ch a IH]; simpl; [reflexivity|now rewrite IH]. Qed.

Lemma append_empty_r (a : string) : a ++ "" = a.
Proof. induction a as [|ch a IH]; simpl; [reflexivity|now rewrite IH]. Qed.

Lemma append_assoc (a b c : string) : (a ++ b) ++ c = a ++ (b ++ c).
Proof. induction a as [|ch a IH]; simpl; [reflexivity|now rewrite IH]. Qed.

Lemma filter_append (keep : ascii -> bool) (a b : string) :
  PyStr.filter keep (a ++ b) = PyStr.filter keep a ++ PyStr.filter keep b.
Proof.
  induction a as [|ch a IH]; simpl; [reflexivity|].
  destruct (keep ch); simpl; now rewrite IH.
Qed.

Lemma all_append (p : ascii -> bool) (a b : string) :
  PyStr.all p (a ++ b) = PyStr.all p a && PyStr.all p b.
Proof.
  induction a as [|ch a IH]; simpl; [reflexivity|].
  now rewrite IH, andb_assoc.
Qed.

Lemma filter_none (keep : ascii -> bool) (s : string) :
  PyStr.all (fun ch => negb (keep ch)) s = true -> PyStr.filter keep s = "".
Proof.
  induction s as [|ch s IH]; simpl; [reflexivity|].
  intros H. apply andb_true_iff in H as [K R].
  apply negb_true_iff in K. rewrite K. exact (IH R).
Qed.

Lemma drop_append (a b : string) (k : nat) :
  PyStr.drop (String.length a + k) (a ++ b) = PyStr.drop k b.
Proof. induction a as [|ch a IH]; simpl; [reflexivity|exact IH]. Qed.

Lemma drop_prefix (a b : string) : PyStr.drop (String.length a) (a ++ b) = b.
Proof.
  rewrite <- (Nat.add_0_r (String.length a)). now rewrite drop_append.
Qed.

Lemma last_append (n : nat) (a b : string) :
  n <= String.length b -> PyStr.last n (a ++ b) = PyStr.last n b.
Proof.
  intros H. unfold PyStr.last. rewrite length_append.
  replace (String.length a + String.length b - n)
    with (String.length a + (String.length b - n)) by lia.
  apply drop_append.
Qed.

Lemma startswith_append (p s : string) : PyStr.startswith p (p ++ s) = true.
Proof.
  induction p as [|ch p IH]; simpl; [reflexivity|].
  now rewrite Ascii.eqb_refl, IH.
Qed.

Lemma startswith_split (p s : string) :
  PyStr.startswith p s = true -> s = p ++ PyStr.drop (String.length p) s.
Proof.
  revert s. induction p as [|ch p IH]; intros s; [reflexivity|].
  destruct s as [|c s]; [discriminate|].
  cbn [PyStr.startswith]. intros H. apply andb_true_iff in H as [E R].
  apply Ascii.eqb_eq in E. subst c. simpl. f_equal. exact (IH _ R).
Qed.

Lemma rstrip_none (s : string) :
  PyStr.all not_space s = true -> PyStr.rstrip s = s.
Proof.
  induction s as [|ch s IH]; simpl; [reflexivity|].
  intros H. apply andb_true_iff in H as [K R].
  rewrite (IH R). apply negb_true_iff in K. rewrite K.
  destruct s; reflexivity.
Qed.

Lemma lstrip_none (s : string) :
  PyStr.all not_space s = true -> PyStr.lstrip s = s.
Proof.
  destruct s as [|ch s]; simpl; [reflexivity|].
  intros H. apply andb_true_iff in H as [K _].
  apply negb_true_iff in K. now rewrite K.
Qed.

Lemma strip_none (s : string) :
  PyStr.all not_space s = true -> PyStr.strip s = s.
Proof.
  intros H. unfold PyStr.strip. rewrite (lstrip_none s H).
  now apply rstrip_none.
Qed.

Lemma lstrip_head (s : string) : head_not_space (PyStr.lstrip s) = true.
Proof.
  induction s as [|ch s IH]; simpl; [reflexivity|].
  destruct (PyStr.isspace ch) eqn:E; [exact IH|]. simpl. now rewrite E.
Qed.

Lemma lstrip_fixed (s : string) :
  head_not_space s = true -> PyStr.lstrip s = s.
Proof.
  destruct s as [|ch s]; simpl; [reflexivity|].
  intros H. apply negb_true_iff in H. now rewrite H.
Qed.

Lemma rstrip_head (s : string) :
  head_not_space s = true -> head_not_space (PyStr.rstrip s) = true.
Proof.
  destruct s as [|ch s]; simpl; [reflexivity|].
  intros H. destruct (PyStr.rstrip s).
  - apply negb_true_iff in H. rewrite H. simpl. now rewrite H.
  - exact H.
Qed.

Lemma rstrip_idempotent (s : string) :
  PyStr.rstrip (PyStr.rstrip s) = PyStr.rstrip s.
Proof.
  induction s as [|ch s IH]; simpl; [reflexivity|].
  destruct (PyStr.rstrip s) as [|c r] eqn:E.
  - destruct (PyStr.isspace ch) eqn:W; simpl; [reflexivity|].
    now rewrite W.
  - change (PyStr.rstrip (String ch (String c r)))
      with (match PyStr.rstrip (String c r) with
            | EmptyString =>
                if PyStr.isspace ch then EmptyString
                else String ch EmptyString
            | kept => String ch kept
            end).
    rewrite IH. reflexivity.
Qed.

Lemma strip_idempotent (s : string) :
  PyStr.strip (PyStr.strip s) = PyStr.strip s.
Proof.
  unfold PyStr.strip.
  rewrite (lstrip_fixed (PyStr.rstrip (PyStr.lstrip s))).
  - apply rstrip_idempotent.
  - apply rstrip_head, lstrip_head.
Qed.

Lemma digit_or_plus_not_space (ch : ascii) :
  digit_or_plus ch = true -> not_space ch = true.
Proof.
  destruct ch as [[] [] [] [] [] [] [] []]; (reflexivity || discriminate).
Qed.

Lemma isdigit_digit_or_plus (ch : ascii) :
  PyStr.isdigit ch = true -> digit_or_plus ch = true.
Proof. unfold digit_or_plus. now intros ->. Qed.

Lemma normalize_phone_filter (p : string) :
  normalize_phone (Some p) = PyStr.filter PyStr.isdigit p.
Proof. destruct p; reflexivity. Qed.

(* ------------------------------------------------------------------ *)
(** ** More on the normalizer and the matcher *)
(* ------------------------------------------------------------------ *)

(** X1: the canonical form of a concatenation is the concatenation of the
    canonical forms, and a run of non-digit characters between two parts
    leaves the canonical form unchanged. *)
Theorem normalize_phone_separators (a sep b : string) :
  normalize_phone (Some (a ++ b))
  = normalize_phone (Some a) ++ normalize_phone (Some b)
  /\ (PyStr.all not_digit sep = true ->
      normalize_phone (Some (a ++ sep ++ b)) = normalize_phone (Some (a ++ b))).
Proof.
  rewrite !normalize_phone_filter, !filter_append. split; [reflexivity|].
  intros H. now rewrite (filter_none PyStr.isdigit sep H).
Qed.

Lemma normalize_phone_separators_witness :
  normalize_phone (Some ("75883" ++ " - " ++ "48865"))
  = normalize_phone (Some ("75883" ++ "48865")).
Proof.
  apply (normalize_phone_separators "75883" " - " "48865"). reflexivity.
Defined.

Lemma phone_matches_true_iff (db_phone wa_phone : option string) :
  phone_matches db_phone wa_phone = true
  <-> normalize_phone db_phone <> ""
      /\ normalize_phone wa_phone <> ""
      /\ PyStr.last 9 (normalize_phone db_phone)
         = PyStr.last 9 (normalize_phone wa_phone).
Proof.
  rewrite phone_matches_unfold.
  set (d := normalize_phone db_phone). set (w := normalize_phone wa_phone).
  rewrite <- !truthy_true_iff.
  destruct (PyStr.truthy d), (PyStr.truthy w); simpl;
    try (split; [discriminate|intros (A & B & _); discriminate]).
  destruct (String.eqb_spec d w) as [E|N].
  - split; [|reflexivity]. intros _. now rewrite E.
  - rewrite String.eqb_eq. split; [now intros H|now intros (_ & _ & H)].
Qed.

(** X2: the matcher answers true exactly when both canonical forms are
    nonempty and their last nine characters agree: the test of exact
    equality adds nothing. *)
Theorem phone_matches_last_nine (db_phone wa_phone : option string) :
  phone_matches db_phone wa_phone
  = PyStr.truthy (normalize_phone db_phone)
    && PyStr.truthy (normalize_phone wa_phone)
    && String.eqb (PyStr.last 9 (normalize_phone db_phone))
                  (PyStr.last 9 (normalize_phone wa_phone)).
Proof.
  rewrite phone_matches_unfold.
  destruct (PyStr.truthy (normalize_phone db_phone)),
    (PyStr.truthy (normalize_phone wa_phone)); simpl; try reflexivity.
  destruct (String.eqb_spec (normalize_phone db_phone)
              (normalize_phone wa_phone)) as [E|N]; [|reflexivity].
  rewrite E. symmetry. apply String.eqb_refl.
Qed.

(** X3: the matcher is symmetric in its two phones. *)
Theorem phone_matches_symmetric (db_phone wa_phone : option string) :
  phone_matches db_phone wa_phone = phone_matches wa_phone db_phone.
Proof.
  destruct (phone_matches db_phone wa_phone) eqn:A;
    destruct (phone_matches wa_phone db_phone) eqn:B; try reflexivity.
  - apply phone_matches_true_iff in A as (D & W & L).
    rewrite <- B. symmetry. apply phone_matches_true_iff. now repeat split.
  - apply phone_matches_true_iff in B as (D & W & L).
    rewrite <- A. apply phone_matches_true_iff. now repeat split.
Qed.

(** X4: the matcher looks at the canonical forms only: two phones match
    exactly when their canonical forms match. *)
Theorem phone_matches_canonical (db_phone wa_phone : option string) :
  phone_matches db_phone wa_phone
  = phone_matches (Some (normalize_phone db_phone))
      (Some (normalize_phone wa_phone)).
Proof.
  rewrite !phone_matches_unfold.
  now rewrite !(normalize_phone_fixed _ (normalize_phone_digits _)).
Qed.

(** X5: a stored phone whose canonical form is the caller's canonical form
    with some prefix in front (a country code, a leading zero) matches it as
    soon as the caller's form has nine digits. *)
Theorem phone_matches_prefixed
    (db_phone wa_phone : option string) (prefix : string) :
  normalize_phone db_phone = prefix ++ normalize_phone wa_phone ->
  9 <= String.length (normalize_phone wa_phone) ->
  phone_matches db_phone wa_phone = true
  /\ phone_matches wa_phone db_phone = true.
Proof.
  intros E L.
  assert (M : phone_matches db_phone wa_phone = true).
  { apply phone_matches_true_iff. rewrite E.
    assert (W : normalize_phone wa_phone <> "").
    { intros Z. rewrite Z in L. simpl in L. lia. }
    refine (conj _ (conj W (last_append 9 _ _ L))).
    intros Z. apply (f_equal String.length) in Z.
    rewrite length_append in Z. simpl in Z. lia. }
  split; [exact M|].
  apply phone_matches_true_iff in M as (D & W & N).
  apply phone_matches_true_iff. now repeat split.
Qed.

Lemma phone_matches_prefixed_witness :
  phone_matches (Some "+91 75883-48865") (Some "(758) 834 8865") = true
  /\ phone_matches (Some "(758) 834 8865") (Some "+91 75883-48865") = true.
Proof.
  apply (phone_matches_prefixed (Some "+91 75883-48865")
           (Some "(758) 834 8865") "91").
  - reflexivity.
  - simpl. lia.
Defined.

(* ------------------------------------------------------------------ *)
(** ** More on the country-code split *)
(* ------------------------------------------------------------------ *)

Lemma cleaned_kept (phone : string) :
  PyStr.all digit_or_plus (cleaned phone) = true.
Proof. apply all_filter. Qed.

Lemma cleaned_fixed (c : string) :
  PyStr.all digit_or_plus c = true -> cleaned c = c.
Proof.
  intros H. unfold cleaned.
  rewrite (strip_none c);
    [now apply filter_fixed|].
  exact (all_weaken _ _ _ digit_or_plus_not_space H).
Qed.

Lemma parse_phone_number_on_cleaned (cfg : config) (phone : string) :
  parse_phone_number cfg (cleaned phone) = parse_phone_number cfg phone.
Proof.
  unfold parse_phone_number. fold (cleaned (cleaned phone)).
  fold (cleaned phone). now rewrite (cleaned_fixed _ (cleaned_kept phone)).
Qed.

(** X6: the split depends on the digits and plus signs of the phone only:
    spaces, dashes, brackets and any other characters change nothing. *)
Theorem parse_phone_number_formatting (cfg : config) (phone phone' : string) :
  cleaned phone = cleaned phone' ->
  parse_phone_number cfg phone = parse_phone_number cfg phone'.
Proof.
  intros E. rewrite <- (parse_phone_number_on_cleaned cfg phone), E.
  apply parse_phone_number_on_cleaned.
Qed.

Lemma parse_phone_number_formatting_witness :
  parse_phone_number sample_config "+91 (75883) 48-865"
  = parse_phone_number sample_config "+917588348865".
Proof.
  apply (parse_phone_number_formatting sample_config). reflexivity.
Defined.

(** X7: the split drops nothing but a recognised prefix: the country code
    is "+91", "+1" or the default one, and the cleaned phone is the
    subscriber number behind "+91" or "91", behind "+1", or behind at most a
    plus sign. *)
Theorem parse_phone_number_keeps_digits (cfg : config) (phone : string) :
  let cc := fst (parse_phone_number cfg phone) in
  let num := snd (parse_phone_number cfg phone) in
  (cc = "+91" /\ (cleaned phone = "+91" ++ num \/ cleaned phone = "91" ++ num))
  \/ (cc = "+1" /\ cleaned phone = "+1" ++ num)
  \/ (cc = DEFAULT_COUNTRY_CODE cfg
      /\ (cleaned phone = "+" ++ num \/ cleaned phone = num)).
Proof.
  cbv zeta. unfold parse_phone_number. fold (cleaned phone).
  set (c := cleaned phone).
  destruct (PyStr.startswith "+" c) eqn:P.
  - pose proof (startswith_split _ _ P) as EP. cbn [String.length] in EP.
    set (r := PyStr.drop 1 c) in *.
    destruct (PyStr.startswith "91" r) eqn:S91.
    + pose proof (startswith_split _ _ S91) as E91.
      cbn [String.length] in E91.
      destruct (12 <=? String.length r); cbn [andb fst snd].
      * left. split; [reflexivity|left].
        rewrite EP at 1. rewrite E91 at 1. reflexivity.
      * destruct (PyStr.startswith "1" r && (11 <=? String.length r)) eqn:A.
        -- apply andb_true_iff in A as [A _].
           pose proof (startswith_1_not_91 r A). congruence.
        -- cbn [fst snd]. right. right. split; [reflexivity|now left].
    + cbn [andb]. rewrite andb_false_r.
      destruct (PyStr.startswith "1" r) eqn:S1; cbn [andb].
      * pose proof (startswith_split _ _ S1) as E1.
        cbn [String.length] in E1.
        destruct (11 <=? String.length r); cbn [fst snd].
        -- right. left. split; [reflexivity|].
           rewrite EP at 1. rewrite E1 at 1. reflexivity.
        -- right. right. split; [reflexivity|now left].
      * cbn [fst snd]. right. right. split; [reflexivity|now left].
  - destruct (PyStr.startswith "91" c) eqn:S91; cbn [andb].
    + pose proof (startswith_split _ _ S91) as E91.
      cbn [String.length] in E91.
      destruct (12 <=? String.length c); cbn [fst snd].
      * left. split; [reflexivity|now right].
      * right. right. split; [reflexivity|now right].
    + cbn [fst snd]. right. right. split; [reflexivity|now right].
Qed.

(** X8: the three formats of an Indian number give the same subscriber
    number.  For a string [s] of digits, "+91" followed by [s] and "91"
    followed by [s] split into "+91" and [s] when [s] has at least 10
    digits, and [s] alone splits into the default country code and [s] when
    it has fewer than 12. *)
Theorem parse_phone_number_indian_formats (cfg : config) (s : string) :
  PyStr.all PyStr.isdigit s = true ->
  (10 <= String.length s ->
   parse_phone_number cfg ("+91" ++ s) = ("+91", s)
   /\ parse_phone_number cfg ("91" ++ s) = ("+91", s))
  /\ (String.length s < 12 ->
      parse_phone_number cfg s = (DEFAULT_COUNTRY_CODE cfg, s)).
Proof.
  intros D.
  assert (K : PyStr.all digit_or_plus s = true)
    by exact (all_weaken _ _ _ isdigit_digit_or_plus D).
  split.
  - intros L. apply Nat.leb_le in L. split.
    + unfold parse_phone_number. fold (cleaned ("+91" ++ s)).
      rewrite cleaned_fixed by (cbn; exact K).
      cbn -[Nat.leb].
      change (12 <=? S (S (String.length s)))
        with (10 <=? String.length s).
      now rewrite L.
    + unfold parse_phone_number. fold (cleaned ("91" ++ s)).
      rewrite cleaned_fixed by (cbn; exact K).
      cbn -[Nat.leb].
      change (12 <=? S (S (String.length s)))
        with (10 <=? String.length s).
      now rewrite L.
  - intros L. unfold parse_phone_number. fold (cleaned s).
    rewrite (cleaned_fixed s K).
    assert (N12 : (12 <=? String.length s) = false)
      by (apply Nat.leb_gt; exact L).
    assert (NP : PyStr.startswith "+" s = false).
    { destruct s as [|ch s']; [reflexivity|].
      cbn [PyStr.startswith]. rewrite andb_true_r.
      cbn [PyStr.all] in D. apply andb_true_iff in D as [D _].
      destruct (Ascii.eqb_spec "+" ch) as [<-|]; [discriminate|reflexivity]. }
    rewrite NP, N12. now rewrite andb_false_r.
Qed.

Lemma parse_phone_number_indian_formats_witness :
  parse_phone_number sample_config ("+91" ++ "7588348865")
  = ("+91", "7588348865")
  /\ parse_phone_number sample_config ("91" ++ "7588348865")
     = ("+91", "7588348865")
  /\ parse_phone_number sample_config "7588348865" = ("+91", "7588348865").
Proof.
  destruct (parse_phone_number_indian_formats sample_config "7588348865"
              eq_refl) as [A B].
  destruct A as [A1 A2]; [simpl; lia|].
  refine (conj A1 (conj A2 _)). apply B. simpl. lia.
Defined.

(* ------------------------------------------------------------------ *)
(** ** More on the data-access functions *)
(* ------------------------------------------------------------------ *)

(** X9: the authorizer never authorizes without an order: when it returns
    [authorized = True], a row was found, the order is its projection, both
    the phone on file and the caller's phone have digits, and their last
    nine digits agree.  An order with no digits on file is authorized for no
    caller. *)
Theorem authorized_only_when_found
    (db : database) (order_id : Z) (wa_phone : string)
    (o : option order_data) :
  fetch_order_with_validation db order_id wa_phone = Returns (o, true) ->
  exists r,
    fetchone db order_id = Returns (Some r)
    /\ o = Some (row_order_data r)
    /\ normalize_phone (Some (stored_phone r)) <> ""
    /\ normalize_phone (Some wa_phone) <> ""
    /\ PyStr.last 9 (normalize_phone (Some (stored_phone r)))
       = PyStr.last 9 (normalize_phone (Some wa_phone)).
Proof.
  unfold fetch_order_with_validation, finally_close.
  destruct (connect db); [|discriminate].
  destruct (close db); [|discriminate].
  destruct (fetchone db order_id) as [[r|]|]; try discriminate.
  intros [= <- M]. exists r.
  rewrite row_phone_stored_phone in M.
  apply phone_matches_true_iff in M. now repeat split.
Qed.

Lemma authorized_only_when_found_witness :
  exists r,
    fetchone sample_database 178541 = Returns (Some r)
    /\ Some (row_order_data sample_row) = Some (row_order_data r)
    /\ normalize_phone (Some (stored_phone r)) <> ""
    /\ normalize_phone (Some "+917588348865") <> ""
    /\ PyStr.last 9 (normalize_phone (Some (stored_phone r)))
       = PyStr.last 9 (normalize_phone (Some "+917588348865")).
Proof.
  apply (authorized_only_when_found sample_database 178541 "+917588348865").
  reflexivity.
Defined.

Lemma or_default_truthy (x : option string) (d : string) :
  d <> "" -> or_default x d <> "".
Proof.
  intros D. unfold or_default, py_or.
  destruct x as [[|ch s]|]; simpl; (exact D || discriminate).
Qed.

Lemma row_customer_name_trimmed (r : row) :
  row_customer_name r <> ""
  /\ PyStr.strip (row_customer_name r) = row_customer_name r.
Proof.
  unfold row_customer_name.
  set (n := PyStr.strip (or_empty (r_firstname r) ++ " "
                         ++ or_empty (r_lastname r))).
  destruct (PyStr.truthy n) eqn:T; simpl.
  - split; [now apply truthy_true_iff|apply strip_idempotent].
  - split; [discriminate|reflexivity].
Qed.

(** X10: the projections of a row never carry an empty customer name or an
    empty status: the name is trimmed and is "Customer" when first and last
    name are absent or empty, the status is "Unknown" when the status name
    is absent or empty and the status name otherwise; this holds for the
    order handed to the gateway and for the order handed to the batch
    sender, whose order data is the same projection. *)
Theorem row_projection_defaults (r : row) (phone : string) :
  (od_customer_name (row_order_data r) <> ""
   /\ PyStr.strip (od_customer_name (row_order_data r))
      = od_customer_name (row_order_data r)
   /\ od_status (row_order_data r) <> "")
  /\ order_data_of (row_order r phone) = row_order_data r
  /\ ((r_firstname r = None \/ r_firstname r = Some "") ->
      (r_lastname r = None \/ r_lastname r = Some "") ->
      od_customer_name (row_order_data r) = "Customer")
  /\ ((r_status_name r = None \/ r_status_name r = Some "") ->
      od_status (row_order_data r) = "Unknown"
      /\ o_status (row_order r phone) = Some "Unknown")
  /\ (forall status, status <> "" -> r_status_name r = Some status ->
      od_status (row_order_data r) = status).
Proof.
  destruct (row_customer_name_trimmed r) as [N S].
  split; [|split; [|split; [|split]]].
  - cbn [row_order_data od_customer_name od_status].
    refine (conj N (conj S _)). now apply or_default_truthy.
  - reflexivity.
  - cbn [row_order_data od_customer_name]. unfold row_customer_name.
    intros [-> | ->] [-> | ->]; reflexivity.
  - cbn [row_order_data row_order od_status o_status].
    intros [-> | ->]; split; reflexivity.
  - cbn [row_order_data od_status]. intros status NE ->.
    destruct status; [contradiction|reflexivity].
Qed.

Lemma row_projection_defaults_witness :
  od_customer_name (row_order_data no_phone_row) = "Customer"
  /\ od_status (row_order_data sample_row) = "Unknown"
  /\ od_status (row_order_data no_phone_row) = "Complete".
Proof.
  split; [|split].
  - destruct (row_projection_defaults no_phone_row "") as (_ & _ & H & _).
    apply H; left; reflexivity.
  - destruct (row_projection_defaults sample_row "") as (_ & _ & _ & H & _).
    apply H. left. reflexivity.
  - destruct (row_projection_defaults no_phone_row "")
      as (_ & _ & _ & _ & H).
    apply H; [discriminate|reflexivity].
Defined.

Lemma rows_to_orders_kept (rows : list row) :
  rows_to_orders rows
  = map (fun r => row_order r (row_phone r)) (filter row_kept rows).
Proof.
  induction rows as [|r rest IH]; [reflexivity|].
  cbn [rows_to_orders filter]. unfold row_kept at 1.
  destruct (no_usable_phone (Some (row_phone r))); cbn [negb map];
    now rewrite IH.
Qed.

Lemma rows_to_orders_usable (rows : list row) (o : order) :
  In o (rows_to_orders rows) -> no_usable_phone (o_phone o) = false.
Proof.
  rewrite rows_to_orders_kept. intros H.
  apply in_map_iff in H as (r & <- & K).
  apply filter_In in K as [_ K]. unfold row_kept in K.
  now apply negb_true_iff in K.
Qed.

(** X11: the automation fetch keeps the rows whose phone has at least 10
    characters once trimmed, in the order of the query: every order it
    returns has a usable phone, which is the phone on file of its row, and
    no more orders are returned than rows were read. *)
Theorem fetch_orders_for_automation_kept
    (db : database) (limit order_status_id days_back : option Z)
    (orders : list order) :
  fetch_orders_for_automation db limit order_status_id days_back
  = Returns orders ->
  (forall o, In o orders -> no_usable_phone (o_phone o) = false)
  /\ exists rows,
       fetchall db limit order_status_id days_back = Returns rows
       /\ map o_order_id orders
          = map (fun r => PyStr.of_int (r_order_id r)) (filter row_kept rows)
       /\ map o_phone orders
          = map (fun r => Some (stored_phone r)) (filter row_kept rows)
       /\ List.length orders <= List.length rows.
Proof.
  unfold fetch_orders_for_automation, finally_close.
  destruct (connect db); [|discriminate].
  destruct (close db); [|discriminate].
  destruct (fetchall db limit order_status_id days_back) as [rows|];
    [|discriminate].
  intros [= <-]. split.
  - apply rows_to_orders_usable.
  - exists rows. rewrite rows_to_orders_kept, !map_map, length_map.
    refine (conj eq_refl (conj eq_refl (conj _ (filter_length_le _ _)))).
    apply map_ext. intros r. cbn. now rewrite row_phone_stored_phone.
Qed.

Lemma fetch_orders_for_automation_kept_witness :
  no_usable_phone (o_phone (row_order sample_row "07588348865")) = false.
Proof.
  apply (fetch_orders_for_automation_kept sample_database None None None
           [row_order sample_row "07588348865"] eq_refl).
  left. reflexivity.
Defined.

(** X12: both data-access functions raise exactly when the connection, the
    query or the release of the connection raises, and a failure to connect
    is reported as "Database connection failed: " followed by the cause. *)
Theorem data_access_faults
    (db : database) (order_id : Z) (wa_phone : string)
    (limit order_status_id days_back : option Z) :
  raised (fetch_orders_for_automation db limit order_status_id days_back)
  = raised (connect db)
    || raised (fetchall db limit order_status_id days_back)
    || raised (close db)
  /\ forall e,
       connect db = Raises e ->
       fetch_order_with_validation db order_id wa_phone
       = Raises ("Database connection failed: " ++ e)
       /\ fetch_orders_for_automation db limit order_status_id days_back
          = Raises ("Database connection failed: " ++ e).
Proof.
  unfold fetch_orders_for_automation, fetch_order_with_validation,
    finally_close.
  split.
  - destruct (connect db); [|reflexivity].
    destruct (close db); simpl.
    + destruct (fetchall db limit order_status_id days_back); reflexivity.
    + now rewrite orb_true_r.
  - intros e ->. split; reflexivity.
Qed.

Lemma data_access_faults_witness :
  fetch_order_with_validation faulty_database 178541 "+917588348865"
  = Raises "Database connection failed: Access denied"
  /\ fetch_orders_for_automation faulty_database None None None
     = Raises "Database connection failed: Access denied".
Proof.
  apply (data_access_faults faulty_database 178541 "+917588348865"
           None None None).
  reflexivity.
Defined.

(* ------------------------------------------------------------------ *)
(** ** More on the batch sender *)
(* ------------------------------------------------------------------ *)

Lemma count_events_app (p : event -> bool) (a b : list event) :
  count_events p (a ++ b)%list = count_events p a + count_events p b.
Proof. unfold count_events. now rewrite filter_app, length_app. Qed.

(** The records one pass of the loop body appends, with the counters. *)
Lemma after_order_records cfg w d o st :
  exists recs,
    details (results (after_order cfg w d o st))
    = (details (results st) ++ recs)%list
    /\ success (results (after_order cfg w d o st))
       = success (results st) + count_records is_success recs
    /\ failed (results (after_order cfg w d o st))
       = failed (results st) + count_records is_failed_or_error recs
    /\ skipped (results (after_order cfg w d o st))
       = skipped (results st) + count_records is_skipped recs
    /\ total (results (after_order cfg w d o st)) = total (results st)
    /\ 1 <= List.length recs <= 2
    /\ count_records is_skipped recs
       = (if no_usable_phone (o_phone o) then 1 else 0).
Proof.
  destruct (no_usable_phone (o_phone o)) eqn:NS.
  - rewrite (after_order_skipped _ _ _ _ _ NS).
    exists [Skipped (o_order_id o) "No phone number"].
    unfold count_records. simpl. repeat split; lia.
  - destruct (fst (gateway_call cfg w o (io st))) as [[status b]|e] eqn:C.
    + rewrite (after_order_returned _ _ _ _ _ _ _ NS C).
      unfold after_pause.
      destruct (pause_outcome w d) as [[]|e'].
      * exists [status_detail o status b].
        unfold record_status, status_detail, count_records.
        destruct (is_200_or_201 status); simpl; repeat split; lia.
      * exists [status_detail o status b; error_detail o e'].
        unfold record_status, status_detail, count_records.
        destruct (is_200_or_201 status); simpl; rewrite <- app_assoc;
          simpl; repeat split; lia.
    + rewrite (after_order_raised _ _ _ _ _ _ NS C).
      exists [error_detail o e]. unfold count_records. simpl.
      repeat split; lia.
Qed.

(** The effects one pass of the loop body adds. *)
Lemma after_order_events cfg w d o st :
  exists evs,
    io (after_order cfg w d o st) = (io st ++ evs)%list
    /\ count_events is_post evs
       = (if no_usable_phone (o_phone o) then 0
          else if api_key_missing cfg then 0 else 1)
    /\ count_events is_sleep evs <= count_events is_post evs
    /\ (positive_delay d = false -> count_events is_sleep evs = 0).
Proof.
  destruct (no_usable_phone (o_phone o)) eqn:NS.
  - rewrite (after_order_skipped _ _ _ _ _ NS). exists [].
    cbn. rewrite app_nil_r. repeat split; lia.
  - destruct (fst (gateway_call cfg w o (io st))) as [[status b]|e] eqn:C.
    + rewrite (after_order_returned _ _ _ _ _ _ _ NS C). cbn [io].
      rewrite gateway_call_events.
      assert (K : api_key_missing cfg = false).
      { unfold gateway_call, interakt_send_order_status in C.
        destruct (api_key_missing cfg); [discriminate|reflexivity]. }
      rewrite K. rewrite <- app_assoc.
      eexists. split; [reflexivity|].
      unfold pause_events.
      destruct (positive_delay d); [destruct (sleep w d)|];
        cbn; repeat split; (lia || discriminate).
    + rewrite (after_order_raised _ _ _ _ _ _ NS C). cbn [io].
      rewrite gateway_call_events.
      destruct (api_key_missing cfg).
      * exists []. cbn. rewrite app_nil_r. repeat split; lia.
      * eexists. split; [reflexivity|]. cbn. repeat split; lia.
Qed.

Lemma counts_agree_append (r r' : BatchResult) (recs : list detail) :
  counts_agree r ->
  details r' = (details r ++ recs)%list ->
  success r' = success r + count_records is_success recs ->
  failed r' = failed r + count_records is_failed_or_error recs ->
  skipped r' = skipped r + count_records is_skipped recs ->
  counts_agree r'.
Proof.
  unfold counts_agree, count_records. intros (S & F & K) D S' F' K'.
  rewrite D, S', F', K', !filter_app, !length_app. lia.
Qed.

Lemma batch_records cfg w d orders st :
  counts_agree (results st) ->
  let st' := fold_left (fun s o => after_order cfg w d o s) orders st in
  counts_agree (results st')
  /\ total (results st') = total (results st)
  /\ List.length (details (results st)) + List.length orders
     <= List.length (details (results st'))
     <= List.length (details (results st)) + 2 * List.length orders
  /\ skipped (results st')
     = skipped (results st) + List.length (filter unusable_phone orders).
Proof.
  revert st. induction orders as [|o rest IH]; intros st A; cbn [fold_left].
  - refine (conj A (conj eq_refl (conj _ _))); cbn; lia.
  - destruct (after_order_records cfg w d o st)
      as (recs & D & S & F & K & T & L & Q).
    assert (A' : counts_agree (results (after_order cfg w d o st)))
      by exact (counts_agree_append _ _ _ A D S F K).
    destruct (IH _ A') as (A'' & T' & L' & K').
    cbv zeta. rewrite D, length_app in L'. rewrite K, Q in K'.
    assert (E : List.length (filter unusable_phone (o :: rest))
                = (if no_usable_phone (o_phone o) then 1 else 0)
                  + List.length (filter unusable_phone rest)).
    { cbn [filter]. unfold unusable_phone at 1.
      destruct (no_usable_phone (o_phone o)); reflexivity. }
    rewrite E, K'. cbn [List.length].
    refine (conj A'' (conj (eq_trans T' T) (conj _ _))); lia.
Qed.

Lemma batch_events cfg w d orders st :
  let st' := fold_left (fun s o => after_order cfg w d o s) orders st in
  exists evs,
    io st' = (io st ++ evs)%list
    /\ (api_key_missing cfg = false ->
        count_events is_post evs = List.length (filter usable_phone orders))
    /\ count_events is_post evs <= List.length orders
    /\ count_events is_sleep evs <= count_events is_post evs
    /\ (positive_delay d = false -> count_events is_sleep evs = 0).
Proof.
  revert st. induction orders as [|o rest IH]; intros st; cbn [fold_left].
  - exists []. cbn. rewrite app_nil_r. repeat split; lia.
  - destruct (after_order_events cfg w d o st) as (e1 & I1 & P1 & S1 & Z1).
    destruct (IH (after_order cfg w d o st)) as (e2 & I2 & P2 & N2 & S2 & Z2).
    exists (e1 ++ e2)%list. cbv zeta in *.
    rewrite I2, I1, <- app_assoc, !count_events_app.
    assert (E : List.length (filter usable_phone (o :: rest))
                = (if no_usable_phone (o_phone o) then 0 else 1)
                  + List.length (filter usable_phone rest)).
    { cbn [filter]. unfold usable_phone at 1.
      destruct (no_usable_phone (o_phone o)); reflexivity. }
    rewrite E, P1. cbn [List.length].
    split; [reflexivity|]. split; [|split; [|split]].
    + intros K. rewrite (P2 K), K. reflexivity.
    + destruct (no_usable_phone (o_phone o)), (api_key_missing cfg); lia.
    + rewrite P1 in S1. lia.
    + intros Z. rewrite (Z2 Z). rewrite (Z1 Z) in S1. rewrite P1 in S1.
      pose proof (Z1 Z). lia.
Qed.

Lemma counts_agree_initial (orders : list order) :
  counts_agree (initial_results orders).
Proof. unfold counts_agree. cbn. repeat split. Qed.

(** X13: what every batch run keeps, whatever the gateway and the clock do:
    the run returns; [total] is the number of orders; each counter is the
    number of detail records of its kind (failed counting the "failed" and
    the "error" records), so the three counters add up to the number of
    records; every order has one or two records; and [skipped] is the number
    of orders without a usable phone. *)
Theorem send_batch_counters
    (cfg : config) (w : world) (d : Q) (orders : list order)
    (tr : list event) :
  exists r,
    fst (send_batch_whatsapp_messages cfg w orders d tr) = Returns r
    /\ counts_agree r
    /\ success r + failed r + skipped r = List.length (details r)
    /\ total r = List.length orders
    /\ List.length orders <= List.length (details r) <= 2 * List.length orders
    /\ skipped r = List.length (filter unusable_phone orders).
Proof.
  rewrite send_batch_run. cbv zeta. cbn [fst]. eexists.
  split; [reflexivity|].
  destruct (batch_records cfg w d orders
              {| results := initial_results orders; io := tr |}
              (counts_agree_initial orders)) as (A & T & L & K).
  cbv zeta in A, T, L, K. cbn in T, L, K.
  refine (conj A (conj _ (conj T (conj L K)))).
  assert (P : forall l : list detail,
            List.length (filter is_success l)
            + List.length (filter is_failed_or_error l)
            + List.length (filter is_skipped l) = List.length l).
  { induction l as [|x l IH]; [reflexivity|].
    destruct x; cbn; lia. }
  destruct A as (S & F & Q). rewrite S, F, Q. apply P.
Qed.

(** X14: with a delay that is not positive the run never pauses, and then
    the three counters add up to [total] and the details hold one record
    per order, in the order of the input. *)
Theorem send_batch_without_delay
    (cfg : config) (w : world) (d : Q) (orders : list order)
    (tr : list event) :
  (d <= 0)%Q ->
  count_events is_sleep (snd (send_batch_whatsapp_messages cfg w orders d tr))
  = count_events is_sleep tr
  /\ exists r,
       fst (send_batch_whatsapp_messages cfg w orders d tr) = Returns r
       /\ success r + failed r + skipped r = total r
       /\ map detail_order_id (details r) = map o_order_id orders.
Proof.
  intros L.
  assert (P : positive_delay d = false).
  { unfold positive_delay. apply negb_false_iff. now apply Qle_bool_iff. }
  split.
  - rewrite send_batch_run. cbv zeta. cbn [snd].
    destruct (batch_events cfg w d orders
                {| results := initial_results orders; io := tr |})
      as (evs & I & _ & _ & _ & Z).
    cbv zeta in I. rewrite I, count_events_app, (Z P). cbn [io]. lia.
  - destruct (send_batch_invariant cfg w d orders tr) as (r & R & S & _ & D).
    + unfold pause_outcome. now rewrite P.
    + exists r. now repeat split.
Qed.

Lemma send_batch_without_delay_witness :
  count_events is_sleep
    (snd (send_batch_whatsapp_messages sample_config (answering 200 "{}")
            [jane; short_phone_order] 0 []))
  = count_events is_sleep [].
Proof.
  apply (send_batch_without_delay sample_config (answering 200 "{}") 0
           [jane; short_phone_order] []).
  discriminate.
Defined.

(** X15: a run makes at most one request per order and never retries: with
    a credential the number of requests is the number of orders with a
    usable phone; and there are never more pauses than requests. *)
Theorem send_batch_requests
    (cfg : config) (w : world) (d : Q) (orders : list order)
    (tr : list event) :
  let tr' := snd (send_batch_whatsapp_messages cfg w orders d tr) in
  (api_key_missing cfg = false ->
   count_events is_post tr'
   = count_events is_post tr + List.length (filter usable_phone orders))
  /\ count_events is_post tr'
     <= count_events is_post tr + List.length orders
  /\ count_events is_sleep tr' + count_events is_post tr
     <= count_events is_post tr' + count_events is_sleep tr.
Proof.
  cbv zeta. rewrite send_batch_run. cbv zeta. cbn [snd].
  destruct (batch_events cfg w d orders
              {| results := initial_results orders; io := tr |})
    as (evs & I & P & N & S & _).
  cbv zeta in I. rewrite I, !count_events_app. cbn [io].
  split; [|split].
  - intros K. now rewrite (P K).
  - lia.
  - lia.
Qed.

Lemma send_batch_requests_witness :
  count_events is_post
    (snd (send_batch_whatsapp_messages sample_config unreachable
            [jane; short_phone_order; jane] 1 []))
  = count_events is_post []
    + List.length (filter usable_phone [jane; short_phone_order; jane]).
Proof.
  apply (send_batch_requests sample_config unreachable 1
           [jane; short_phone_order; jane] []).
  reflexivity.
Defined.

(** X16: the loop over a list of orders followed by more orders is the loop
    over the first list, then the loop over the others from the state
    reached: no outcome of an order stops the loop. *)
Theorem for_each_orders_append
    (cfg : config) (w : world) (d : Q) (orders more : list order)
    (st : run_state) :
  for_each (orders ++ more)%list (process_order cfg w d) st
  = for_each more (process_order cfg w d)
      (snd (for_each orders (process_order cfg w d) st))
  /\ fst (for_each orders (process_order cfg w d) st) = Returns tt.
Proof.
  rewrite !for_each_run. cbn [fst snd]. now rewrite fold_left_app.
Qed.

(* ------------------------------------------------------------------ *)
(** ** The single-order endpoint *)
(* ------------------------------------------------------------------ *)

(** Closes a goal whose hypothesis says that an unchanged trace changed. *)
Ltac unchanged_trace :=
  let H := fresh "H" in intros H; exfalso; apply H; reflexivity.

(** X17: the single-order endpoint makes a request to the messaging API
    only for an order that was found and whose phone on file matches the
    caller's phone. *)
Theorem order_status_requests_need_authorization
    (py_int : string -> option Z) (cfg : config) (w : world) (db : database)
    (order_id phone : option string) (tr : list event) :
  snd (order_status py_int cfg w db order_id phone tr) <> tr ->
  exists oid ph id od,
    order_id = Some oid /\ phone = Some ph /\ py_int oid = Some id
    /\ fetch_order_with_validation db id ph = Returns (Some od, true).
Proof.
  unfold order_status.
  destruct order_id as [oid|]; [|unchanged_trace].
  destruct (PyStr.truthy (get_default (Some oid) "")); [|unchanged_trace].
  destruct phone as [ph|]; [|unchanged_trace].
  destruct (PyStr.truthy (get_default (Some ph) "")); [|unchanged_trace].
  cbn [negb get_default].
  destruct (py_int oid) as [id|] eqn:PI; [|unchanged_trace].
  destruct (fetch_order_with_validation db id ph) as [[[od|] []]|] eqn:F;
    try unchanged_trace.
  intros _. now exists oid, ph, id, od.
Qed.

Lemma order_status_requests_need_authorization_witness :
  exists oid ph id od,
    Some "178541" = Some oid /\ Some "+917588348865" = Some ph
    /\ decimal_int oid = Some id
    /\ fetch_order_with_validation sample_database id ph
       = Returns (Some od, true).
Proof.
  apply (order_status_requests_need_authorization decimal_int sample_config
           (answering 200 "{}") sample_database (Some "178541")
           (Some "+917588348865") []).
  discriminate.
Defined.

(** X18: validation comes before data access: with a missing or empty
    [order_id] or [phone], or an [order_id] that is not an integer, the
    endpoint answers 400 without any effect, whatever the database and the
    gateway would do. *)
Theorem order_status_validates_first
    (py_int : string -> option Z) (order_id phone : option string) :
  PyStr.truthy (get_default order_id "") = false
  \/ PyStr.truthy (get_default phone "") = false
  \/ py_int (get_default order_id "") = None ->
  exists e,
    forall cfg w db tr,
      order_status py_int cfg w db order_id phone tr
      = (Returns (BadRequest e), tr)
      /\ order_status_code (BadRequest e) = 400%Z.
Proof.
  unfold order_status.
  destruct (PyStr.truthy (get_default order_id "")); cbn [negb];
    [|intros _; eexists; intros; split; reflexivity].
  destruct (PyStr.truthy (get_default phone "")); cbn [negb];
    [|intros _; eexists; intros; split; reflexivity].
  intros [H|[H|H]]; try discriminate.
  rewrite H. eexists. intros. split; reflexivity.
Qed.

Lemma order_status_validates_first_witness :
  exists e,
    forall cfg w db tr,
      order_status decimal_int cfg w db (Some "12a") (Some "7588348865") tr
      = (Returns (BadRequest e), tr)
      /\ order_status_code (BadRequest e) = 400%Z.
Proof.
  apply (order_status_validates_first decimal_int (Some "12a")
           (Some "7588348865")).
  right. right. reflexivity.
Defined.

(** X19: for a well-formed query the answer follows the database: 500 on a
    data-access fault, 404 when no row exists, 403 with the row's own
    identifier when the phone on file does not match; none of these makes a
    request.  When the phone matches, the outcome is that of the gateway
    call for the projected order. *)
Theorem order_status_outcomes
    (py_int : string -> option Z) (cfg : config) (w : world) (db : database)
    (oid ph : string) (id : Z) (tr : list event) :
  PyStr.truthy oid = true -> PyStr.truthy ph = true ->
  py_int oid = Some id ->
  let answer := order_status py_int cfg w db (Some oid) (Some ph) tr in
  (data_access_fault db id = true ->
   exists m h, answer = (Returns (DatabaseError oid m h), tr))
  /\ (data_access_fault db id = false ->
      (fetchone db id = Returns None ->
       exists m h, answer = (Returns (OrderNotFound oid m h), tr))
      /\ (forall r, fetchone db id = Returns (Some r) ->
          (phone_matches (Some (stored_phone r)) (Some ph) = false ->
           exists m,
             answer
             = (Returns (PhoneMismatch (PyStr.of_int (r_order_id r)) m), tr))
          /\ (phone_matches (Some (stored_phone r)) (Some ph) = true ->
              answer
              = match interakt_send_order_status cfg w (row_order_data r)
                        ph tr with
                | (Raises e, tr') => (Raises e, tr')
                | (Returns (status, b), tr') =>
                    (Returns (OrderSent (row_order_data r) status b), tr')
                end))).
Proof.
  intros TO TP PI. cbv zeta. unfold order_status. cbn [get_default].
  rewrite TO, TP, PI. cbn [negb].
  unfold fetch_order_with_validation, finally_close, data_access_fault.
  destruct (connect db) as [[]|e]; cbn [raised orb].
  - destruct (close db) as [[]|e']; cbn [raised].
    + rewrite orb_false_r.
      destruct (fetchone db id) as [[r|]|e'']; cbn [raised];
        (split; [intros X|intros X; split; [intros Y|intros r' Y]]);
        try discriminate; try (do 2 eexists; reflexivity).
      injection Y as <-. rewrite row_phone_stored_phone.
      split; intros M; rewrite M; cbn [negb]; [eexists|]; reflexivity.
    + rewrite orb_true_r.
      split; [intros _; do 2 eexists; reflexivity|discriminate].
  - split; [intros _; do 2 eexists; reflexivity|discriminate].
Qed.

Lemma order_status_outcomes_witness :
  (exists m h,
     order_status decimal_int sample_config (answering 200 "{}")
       sample_database (Some "7") (Some "+917588348865") []
     = (Returns (OrderNotFound "7" m h), []))
  /\ (exists m,
        order_status decimal_int sample_config (answering 200 "{}")
          sample_database (Some "178541") (Some "+917588348860") []
        = (Returns (PhoneMismatch "178541" m), [])).
Proof.
  split.
  - destruct (order_status_outcomes decimal_int sample_config
                (answering 200 "{}") sample_database "7" "+917588348865" 7
                [] eq_refl eq_refl eq_refl) as [_ H].
    destruct (H eq_refl) as [N _]. exact (N eq_refl).
  - destruct (order_status_outcomes decimal_int sample_config
                (answering 200 "{}") sample_database "178541"
                "+917588348860" 178541 [] eq_refl eq_refl eq_refl) as [_ H].
    destruct (H eq_refl) as [_ N].
    destruct (N sample_row eq_refl) as [M _]. exact (M eq_refl).
Defined.

(** X20: in the single-order endpoint a fault of the send operation is not
    caught: for an authorized order a missing credential makes the endpoint
    raise before any request, and a transport fault makes it raise after
    the request; when the gateway answers, its status code is the status
    code of the endpoint's answer. *)
Theorem order_status_gateway
    (py_int : string -> option Z) (cfg : config) (w : world) (db : database)
    (oid ph : string) (id : Z) (od : order_data) (tr : list event) :
  PyStr.truthy oid = true -> PyStr.truthy ph = true ->
  py_int oid = Some id ->
  fetch_order_with_validation db id ph = Returns (Some od, true) ->
  let answer := order_status py_int cfg w db (Some oid) (Some ph) tr in
  let authorization := "Basic " ++ or_empty (INTERAKT_API_KEY cfg) in
  let p := build_payload cfg od ph in
  (api_key_missing cfg = true ->
   answer = (Raises "INTERAKT_API_KEY not set in .env", tr))
  /\ (api_key_missing cfg = false ->
      (forall e, post w tr authorization p = Raises e ->
       answer = (Raises e, (tr ++ [Post authorization p])%list))
      /\ (forall resp, post w tr authorization p = Returns resp ->
          exists a,
            answer = (Returns a, (tr ++ [Post authorization p])%list)
            /\ order_status_code a = status_code resp)).
Proof.
  intros TO TP PI F. cbv zeta. unfold order_status. cbn [get_default].
  rewrite TO, TP, PI, F. cbn [negb].
  unfold interakt_send_order_status.
  split.
  - now intros ->.
  - intros ->. split.
    + now intros e ->.
    + intros resp ->. eexists. split; reflexivity.
Qed.

Lemma order_status_gateway_witness :
  order_status decimal_int no_credential (answering 200 "{}") sample_database
    (Some "178541") (Some "+917588348865") []
  = (Raises "INTERAKT_API_KEY not set in .env", []).
Proof.
  apply (order_status_gateway decimal_int no_credential (answering 200 "{}")
           sample_database "178541" "+917588348865" 178541
           (row_order_data sample_row) []); reflexivity.
Defined.

(* ------------------------------------------------------------------ *)
(** ** The automation endpoints *)
(* ------------------------------------------------------------------ *)

Lemma fetched_orders_usable db limit order_status_id days_back orders :
  fetch_orders_for_automation db limit order_status_id days_back
  = Returns orders ->
  filter unusable_phone orders = [].
Proof.
  unfold fetch_orders_for_automation, finally_close.
  destruct (connect db); [|discriminate].
  destruct (close db); [|discriminate].
  destruct (fetchall db limit order_status_id days_back) as [rows|];
    [|discriminate].
  intros [= <-].
  assert (U := rows_to_orders_usable rows).
  induction (rows_to_orders rows) as [|o l IH]; [reflexivity|].
  cbn [filter]. unfold unusable_phone at 1.
  rewrite (U o (or_introl eq_refl)). apply IH.
  intros o' H. apply U. now right.
Qed.

(** X21: a dry run never sends: it makes no request and no pause, does not
    answer with a batch result, and when the fetch returns orders it
    answers 200 with exactly those orders. *)
Theorem automate_dry_run
    (cfg : config) (w : world) (db : database) (rq : automation_request)
    (tr : list event) :
  dry_run rq = true ->
  snd (automate_send_messages cfg w db rq tr) = tr
  /\ (forall r l s d,
        fst (automate_send_messages cfg w db rq tr) <> Processed r l s d)
  /\ (forall o orders,
        fetch_orders_for_automation db (limit rq) (order_status_id rq)
          (days_back rq) = Returns (o :: orders) ->
        automate_send_messages cfg w db rq tr
        = (DryRun (o :: orders) (limit rq) (order_status_id rq)
             (days_back rq), tr)).
Proof.
  intros D. unfold automate_send_messages. rewrite D.
  destruct (fetch_orders_for_automation db (limit rq) (order_status_id rq)
              (days_back rq)) as [[|o orders]|e];
    (split; [reflexivity|split; [discriminate|]]);
    intros o' orders' [=]; subst; reflexivity.
Qed.

Lemma automate_dry_run_witness :
  snd (automate_send_messages sample_config (answering 200 "{}")
         sample_database dry_run_request [])
  = [].
Proof.
  apply (automate_dry_run sample_config (answering 200 "{}") sample_database
           dry_run_request []).
  reflexivity.
Defined.

(** X22: the preview and the dry run read the same orders: on a fetch fault
    both answer 500 with the message; with at least one order both answer
    200 with the same list; with no order the preview answers 200 with an
    empty list while the dry run answers 404. *)
Theorem automate_preview_and_dry_run
    (cfg : config) (w : world) (db : database) (rq : automation_request)
    (tr : list event) :
  dry_run rq = true ->
  match automate_preview db (limit rq) (order_status_id rq) (days_back rq)
  with
  | PreviewFailed e =>
      fst (automate_send_messages cfg w db rq tr) = AutomationFailed e
  | Preview n orders l s d =>
      n = List.length orders
      /\ (orders = [] ->
          fst (automate_send_messages cfg w db rq tr) = NoOrdersFound l s d)
      /\ (orders <> [] ->
          fst (automate_send_messages cfg w db rq tr) = DryRun orders l s d)
  end.
Proof.
  intros D. unfold automate_preview, automate_send_messages. rewrite D.
  destruct (fetch_orders_for_automation db (limit rq) (order_status_id rq)
              (days_back rq)) as [[|o orders]|e]; [| |reflexivity].
  - split; [reflexivity|split; [reflexivity|now intros []]].
  - split; [reflexivity|split; [discriminate|reflexivity]].
Qed.

Lemma automate_preview_and_dry_run_witness :
  fst (automate_send_messages sample_config (answering 200 "{}")
         faulty_database dry_run_request [])
  = AutomationFailed "Database connection failed: Access denied".
Proof.
  apply (automate_preview_and_dry_run sample_config (answering 200 "{}")
           faulty_database dry_run_request []).
  reflexivity.
Defined.

Lemma records_partition (l : list detail) :
  List.length (filter is_success l)
  + List.length (filter is_failed_or_error l)
  + List.length (filter is_skipped l) = List.length l.
Proof.
  induction l as [|x l IH]; [reflexivity|]. destruct x; simpl; lia.
Qed.

(** X23: once the fetch has returned at least one order and the run is not
    a dry run, the automation answers 200 with a batch result, whatever the
    gateway and the clock do: its [total] is the number of fetched orders,
    no order is skipped, and its counters add up to the number of detail
    records. *)
Theorem automate_send_messages_processed
    (cfg : config) (w : world) (db : database) (rq : automation_request)
    (tr : list event) (o : order) (orders : list order) :
  fetch_orders_for_automation db (limit rq) (order_status_id rq)
    (days_back rq) = Returns (o :: orders) ->
  dry_run rq = false ->
  exists r,
    fst (automate_send_messages cfg w db rq tr)
    = Processed r (limit rq) (order_status_id rq) (days_back rq)
    /\ http_status (fst (automate_send_messages cfg w db rq tr)) = 200%Z
    /\ success_flag (fst (automate_send_messages cfg w db rq tr)) = true
    /\ total r = S (List.length orders)
    /\ skipped r = 0
    /\ success r + failed r = List.length (details r).
Proof.
  intros F D. unfold automate_send_messages. rewrite F, D.
  rewrite send_batch_run. cbv zeta. eexists.
  split; [reflexivity|]. cbn [fst http_status success_flag].
  destruct (batch_records cfg w (delay_seconds rq) (o :: orders)
              {| results := initial_results (o :: orders); io := tr |}
              (counts_agree_initial (o :: orders))) as (A & T & _ & K).
  cbv zeta in A, T, K. rewrite (fetched_orders_usable _ _ _ _ _ F) in K.
  set (r := results _) in *. clearbody r.
  cbn [results initial_results total skipped List.length] in T, K.
  rewrite Nat.add_0_r in K.
  refine (conj eq_refl (conj eq_refl (conj T (conj K _)))).
  destruct A as (S & Fl & Q).
  pose proof (records_partition (details r)). lia.
Qed.

Lemma automate_send_messages_processed_witness :
  exists r,
    fst (automate_send_messages sample_config unreachable sample_database
           send_request [])
    = Processed r None None None
    /\ http_status
         (fst (automate_send_messages sample_config unreachable
                 sample_database send_request [])) = 200%Z
    /\ success_flag
         (fst (automate_send_messages sample_config unreachable
                 sample_database send_request [])) = true
    /\ total r = 1
    /\ skipped r = 0
    /\ success r + failed r = List.length (details r).
Proof.
  apply (automate_send_messages_processed sample_config unreachable
           sample_database send_request []
           (row_order sample_row "07588348865") []); reflexivity.
Defined.

(* ------------------------------------------------------------------ *)
(** ** The bearer-token check *)
(* ------------------------------------------------------------------ *)

(** X24: the bearer-token check rejects a request without [Authorization]
    header and a header that does not start with "Bearer "; it accepts
    "Bearer " followed by any text whose trimmed form is the secret; and a
    secret that itself starts or ends with white space is accepted from no
    header at all. *)
Theorem verify_auth_header_tokens (secret : string) :
  verify_auth_header secret None = false
  /\ (forall auth,
        PyStr.startswith "Bearer " auth = false ->
        verify_auth_header secret (Some auth) = false)
  /\ (forall token,
        PyStr.strip token = secret ->
        verify_auth_header secret (Some ("Bearer " ++ token)) = true)
  /\ (PyStr.strip secret <> secret ->
      forall auth, verify_auth_header secret auth = false).
Proof.
  unfold verify_auth_header.
  split; [reflexivity|split; [|split]].
  - intros auth S. cbn [get_default]. now rewrite S.
  - intros token E. cbn [get_default].
    rewrite (startswith_append "Bearer " token). cbn [negb].
    rewrite (drop_prefix "Bearer " token). rewrite E.
    apply String.eqb_refl.
  - intros N auth.
    destruct (PyStr.startswith "Bearer " (get_default auth ""));
      [|reflexivity].
    cbn [negb]. apply String.eqb_neq. intros E. apply N.
    rewrite <- E. apply strip_idempotent.
Qed.

Lemma verify_auth_header_tokens_witness :
  verify_auth_header "change_this" (Some ("Bearer " ++ "  change_this "))
  = true
  /\ verify_auth_header "change_this" (Some "bearer change_this") = false
  /\ verify_auth_header " padded" (Some "Bearer  padded") = false.
Proof.
  split; [|split].
  - destruct (verify_auth_header_tokens "change_this") as (_ & _ & H & _).
    apply (H "  change_this "). reflexivity.
  - destruct (verify_auth_header_tokens "change_this") as (_ & H & _).
    apply H. reflexivity.
  - destruct (verify_auth_header_tokens " padded") as (_ & _ & _ & H).
    apply H. cbv. discriminate.
Defined.
